(** * Shared budget ledger service (main.go): model and verified properties

    The Go program keeps one [balance]/[budget] pair of [int32]s in a
    mutex-guarded [Server], persists it as 8 little-endian bytes in
    [budget.dat], gates every route behind an allowlist and journals
    accepted mutations and rejected accesses.

    The model is sequential: every handler of the source runs under
    [s.mu], so one handler call is one atomic step on
    (in-memory server, outside world). *)

From Stdlib Require Import ZArith Lia.
From Stdlib.Strings Require Import Byte Ascii.
From stdpp Require Import base option list strings gmap pretty.

Local Open Scope Z_scope.

(** ** Fixed-width integers

    Go's [int32] and [uint32] are carried as [Z]; conversions and
    arithmetic wrap as the language defines. *)

Module Int32.

Definition min_int : Z := -2147483648.
Definition max_int : Z := 2147483647.
Definition modulus : Z := 4294967296.

(** [in_range z]: [z] is a value of type [int32]. *)
Definition in_range (z : Z) : Prop := min_int <= z <= max_int.

Definition in_rangeb (z : Z) : bool := (min_int <=? z) && (z <=? max_int).

(** [uint32(x)] for an integer [x]. *)
Definition to_uint32 (z : Z) : Z := z mod modulus.

(** [int32(x)] for an integer [x]: two's complement wrap-around. *)
Definition of_Z (z : Z) : Z := (z + 2147483648) mod modulus - 2147483648.

(** [a + b] and [a - b] on [int32] operands. *)
Definition add (a b : Z) : Z := of_Z (a + b).
Definition sub (a b : Z) : Z := of_Z (a - b).

End Int32.

(** ** Bytes and [encoding/binary.LittleEndian] *)

Definition byte_val (b : byte) : Z := Z.of_N (Byte.to_N b).

(** [byte(v)]: the low eight bits of [v]. *)
Definition byte_of (v : Z) : byte :=
  default x00 (Byte.of_N (Z.to_N (Z.land v 255))).

Module LittleEndian.

(** [binary.LittleEndian.Uint32(b)]: reads [b[0..3]]; [None] stands for the
    index-out-of-range panic on a slice shorter than four bytes. *)
Definition Uint32 (b : list byte) : option Z :=
  b3 ← b !! 3%nat;
  b0 ← b !! 0%nat;
  b1 ← b !! 1%nat;
  b2 ← b !! 2%nat;
  Some (Z.lor (Z.lor (Z.lor (byte_val b0) (Z.shiftl (byte_val b1) 8))
                     (Z.shiftl (byte_val b2) 16))
              (Z.shiftl (byte_val b3) 24)).

(** [binary.LittleEndian.PutUint32(data[off:off+4], v)], writing through
    the slice into the backing array [data]. Go panics on a slice shorter
    than four bytes; [saveData], the only caller, passes the two halves of
    its eight-byte buffer. *)
Definition PutUint32 (data : list byte) (off : nat) (v : Z) : list byte :=
  let data := <[off := byte_of v]> data in
  let data := <[(off + 1)%nat := byte_of (Z.shiftr v 8)]> data in
  let data := <[(off + 2)%nat := byte_of (Z.shiftr v 16)]> data in
  <[(off + 3)%nat := byte_of (Z.shiftr v 24)]> data.

End LittleEndian.

(** [data[lo:hi]] *)
Definition slice (data : list byte) (lo hi : nat) : list byte :=
  take (hi - lo) (drop lo data).

(** The value [Uint32] assembles from four bytes. *)
Definition le32 (b0 b1 b2 b3 : byte) : Z :=
  Z.lor (Z.lor (Z.lor (byte_val b0) (Z.shiftl (byte_val b1) 8))
               (Z.shiftl (byte_val b2) 16))
        (Z.shiftl (byte_val b3) 24).

(** ** The server and the world it runs in *)

(** Configuration constants. *)
Definition maxBalance : Z := 2000000000.

(** [Server]: the mutex-guarded application state. The two loggers are
    handles on files and live in [World]. *)
Record Server := mkServer {
  balance : Z;                (* int32, pence *)
  budget : Z;                 (* int32, pence *)
  users : gmap string bool    (* map[string]bool *)
}.

Definition set_balance (s : Server) (v : Z) : Server :=
  mkServer v (budget s) (users s).

Definition set_budget (s : Server) (v : Z) : Server :=
  mkServer (balance s) v (users s).

(** [s.users[user]]: a missing key reads as [false]. *)
Definition users_index (s : Server) (user : string) : bool :=
  default false (users s !! user).

(** Both fields hold [int32] values. *)
Definition Server_ok (s : Server) : Prop :=
  Int32.in_range (balance s) /\ Int32.in_range (budget s).

(** What lies outside the process: the state file and the three logs. *)
Record World := mkWorld {
  dbFile : option (list byte);   (* budget.dat; [None]: it does not exist *)
  transLog : list string;        (* lines of transactions.csv *)
  unauthLog : list string;       (* lines of unauthorized.log *)
  stdLog : list string           (* messages of the standard logger *)
}.

Definition set_dbFile (w : World) (f : option (list byte)) : World :=
  mkWorld f (transLog w) (unauthLog w) (stdLog w).

(** How one [saveData] call may fail: at [os.OpenFile], at [f.Write]
    (after the truncation, with [n] bytes reaching the file) or at
    [f.Sync]. *)
Inductive fault :=
| NoFault
| OpenFails
| WriteFails (n : nat)
| SyncFails.

(** Go [error] values the program produces or passes on. *)
Inductive error :=
| ErrOS (call : string)
| ErrInvalidDataLength (n : nat)
| PanicIndexOutOfRange.

(** [err.Error()]; the texts of the operating system's errors are not
    fixed by the program and are rendered by the failing call. *)
Definition Error (e : error) : string :=
  match e with
  | ErrOS call => call
  | ErrInvalidDataLength n => "invalid data length: " +:+ pretty (Z.of_nat n)
  | PanicIndexOutOfRange => "index out of range"
  end.

(** What the environment decides during one handler call: the clock read
    by [time.Now] and the fate of the disk write. *)
Record Env := mkEnv {
  now_date : string;     (* now.Format("2006-01-02") *)
  now_time : string;     (* now.Format("15:04:05") *)
  disk : fault
}.

Definition newline : string := String "010"%char EmptyString.

(** [log.Printf] / [log.Println] on the standard logger (its time prefix
    is left out). *)
Definition log_Print (w : World) (msg : string) : World :=
  mkWorld (dbFile w) (transLog w) (unauthLog w) (stdLog w ++ [msg]).

(** [ThreadSafeLogger.Log] on the two sinks: the formatted line is appended
    to the file (the source ignores the result of [fmt.Fprintf]; the model
    takes the append to succeed). *)
Definition transLogger_Log (w : World) (line : string) : World :=
  mkWorld (dbFile w) (transLog w ++ [line]) (unauthLog w) (stdLog w).

Definition unauthLogger_Log (w : World) (line : string) : World :=
  mkWorld (dbFile w) (transLog w) (unauthLog w ++ [line]) (stdLog w).

(** [logTransaction]: format ["%s,%s,%s,%s,%d\n"]. *)
Definition logTransaction (w : World) (e : Env)
    (user action : string) (amount : Z) : World :=
  transLogger_Log w
    (now_date e +:+ "," +:+ now_time e +:+ "," +:+ user +:+ "," +:+
     action +:+ "," +:+ pretty amount +:+ newline).

(** [logUnauthorized]: format ["%s,%s,%s,%s\n"]. *)
Definition logUnauthorized (w : World) (e : Env) (user ip : string) : World :=
  unauthLogger_Log w
    (now_date e +:+ "," +:+ now_time e +:+ "," +:+ user +:+ "," +:+
     ip +:+ newline).

(** ** Persistence *)

(** The eight bytes [saveData] builds. *)
Definition encode (s : Server) : list byte :=
  let data := replicate 8 x00 in
  let data := LittleEndian.PutUint32 data 0 (Int32.to_uint32 (balance s)) in
  LittleEndian.PutUint32 data 4 (Int32.to_uint32 (budget s)).

(** [saveData]: [O_TRUNC] empties the file as soon as it is opened. *)
Definition saveData (s : Server) (w : World) (f : fault)
    : World * option error :=
  let data := encode s in
  match f with
  | OpenFails => (w, Some (ErrOS "open"))
  | WriteFails n => (set_dbFile w (Some (take n data)), Some (ErrOS "write"))
  | SyncFails => (set_dbFile w (Some data), Some (ErrOS "sync"))
  | NoFault => (set_dbFile w (Some data), None)
  end.

(** [loadData]; [read_fails] is an [os.ReadFile] error other than
    "does not exist". *)
Definition loadData (s : Server) (w : World) (read_fails : bool) (f : fault)
    : Server * World * option error :=
  if read_fails then (s, w, Some (ErrOS "read"))
  else
    match dbFile w with
    | None => (set_budget (set_balance s 0) 0, w, None)
    | Some data =>
        if (length data =? 4)%nat then
          match LittleEndian.Uint32 data with
          | None => (s, w, Some PanicIndexOutOfRange)
          | Some u =>
              let s := set_balance s (Int32.of_Z u) in
              let s := set_budget s 0 in
              let w := log_Print w
                "Migrated database from 4 bytes to 8 bytes (added default Budget: 0)" in
              let '(w, err) := saveData s w f in
              (s, w, err)
          end
        else if (length data =? 8)%nat then
          match LittleEndian.Uint32 (slice data 0 4),
                LittleEndian.Uint32 (slice data 4 8) with
          | Some u0, Some u1 =>
              let s := set_balance s (Int32.of_Z u0) in
              let s := set_budget s (Int32.of_Z u1) in
              (s, w, None)
          | _, _ => (s, w, Some PanicIndexOutOfRange)
          end
        else (s, w, Some (ErrInvalidDataLength (length data)))
    end.

(** ** Requests and responses *)

(** What [json.NewDecoder(r.Body).Decode(&req)] meets in the body for the
    one integer field of [SetRequest], [SpendRequest] or
    [SetBudgetRequest]. *)
Inductive payload :=
| Unparsable            (* no JSON, or JSON of another shape or type *)
| Number (z : Z).       (* an object carrying the integer [z] in the field *)

(** Decoding into the [int32] field fails on a number that does not fit. *)
Definition Decode (p : payload) : option Z :=
  match p with
  | Unparsable => None
  | Number z => if Int32.in_rangeb z then Some z else None
  end.

Record Request := mkRequest {
  Method : string;
  Path : string;             (* r.URL.Path *)
  Authorization : string;    (* r.Header.Get("Authorization"); empty if absent *)
  RemoteAddr : string;
  Payload : payload
}.

Inductive body :=
| NoBody
| Text (s : string)
| Json (bal bud : Z).        (* GetResponse, as json.Encoder writes it *)

Record ResponseWriter := mkWriter {
  Header : gmap string string;
  Status : Z;
  Body : body
}.

Definition StatusOK : Z := 200.
Definition StatusBadRequest : Z := 400.
Definition StatusUnauthorized : Z := 401.
Definition StatusNotFound : Z := 404.
Definition StatusMethodNotAllowed : Z := 405.
Definition StatusInternalServerError : Z := 500.

(** A fresh writer: nothing written yet, which the transport sends as 200. *)
Definition newWriter : ResponseWriter := mkWriter ∅ StatusOK NoBody.

Definition Header_Set (rw : ResponseWriter) (k v : string) : ResponseWriter :=
  mkWriter (<[k := v]> (Header rw)) (Status rw) (Body rw).

Definition WriteHeader (rw : ResponseWriter) (code : Z) : ResponseWriter :=
  mkWriter (Header rw) code (Body rw).

(** The first write on a writer. *)
Definition Fprint (rw : ResponseWriter) (b : body) : ResponseWriter :=
  mkWriter (Header rw) (Status rw) b.

(** [http.Error]: plain-text headers, the status, then the message and a
    newline. *)
Definition http_Error (rw : ResponseWriter) (msg : string) (code : Z)
    : ResponseWriter :=
  let rw := Header_Set rw "Content-Type" "text/plain; charset=utf-8" in
  let rw := Header_Set rw "X-Content-Type-Options" "nosniff" in
  let rw := WriteHeader rw code in
  Fprint rw (Text (msg +:+ newline)).

Definition HandlerFunc : Type :=
  Server -> World -> Env -> ResponseWriter -> Request ->
  Server * World * ResponseWriter.

(** ** Handlers *)

(** [authMiddleware] *)
Definition authMiddleware (next : HandlerFunc) : HandlerFunc :=
  fun s w e rw r =>
    let rw := Header_Set rw "Access-Control-Allow-Origin" "*" in
    let rw := Header_Set rw "Access-Control-Allow-Methods" "GET, POST, OPTIONS" in
    let rw := Header_Set rw "Access-Control-Allow-Headers"
                "Content-Type, Authorization" in
    if String.eqb (Method r) "OPTIONS" then
      (s, w, WriteHeader rw StatusOK)
    else
      let user := Authorization r in
      if String.eqb user EmptyString || negb (users_index s user) then
        let w := logUnauthorized w e user (RemoteAddr r) in
        (s, w, http_Error rw "Unauthorized" StatusUnauthorized)
      else next s w e rw r.

(** [handleGet] *)
Definition handleGet : HandlerFunc :=
  fun s w e rw r =>
    if negb (String.eqb (Method r) "GET") then
      (s, w, http_Error rw "Method not allowed" StatusMethodNotAllowed)
    else
      let rw := Header_Set rw "Content-Type" "application/json" in
      (s, w, Fprint rw (Json (balance s) (budget s))).

(** [handleSet] *)
Definition handleSet : HandlerFunc :=
  fun s w e rw r =>
    if negb (String.eqb (Method r) "POST") then
      (s, w, http_Error rw "Method not allowed" StatusMethodNotAllowed)
    else
      match Decode (Payload r) with
      | None => (s, w, http_Error rw "Invalid body" StatusBadRequest)
      | Some amount =>
          if amount >? maxBalance then
            (s, w, http_Error rw "Amount exceeds limit" StatusBadRequest)
          else
            let s := set_balance s amount in
            match saveData s w (disk e) with
            | (w, Some err) =>
                let w := log_Print w ("Error saving data: " +:+ Error err) in
                (s, w, http_Error rw "Internal Server Error"
                         StatusInternalServerError)
            | (w, None) =>
                let user := Authorization r in
                let w := logTransaction w e user "SET" amount in
                (s, w, Fprint rw (Text (pretty (balance s))))
            end
      end.

(** [handleSpend] *)
Definition handleSpend : HandlerFunc :=
  fun s w e rw r =>
    if negb (String.eqb (Method r) "POST") then
      (s, w, http_Error rw "Method not allowed" StatusMethodNotAllowed)
    else
      match Decode (Payload r) with
      | None => (s, w, http_Error rw "Invalid body" StatusBadRequest)
      | Some amount =>
          if (amount >? 100000000) || (amount <? -100000000) then
            (s, w, http_Error rw "Transaction too large" StatusBadRequest)
          else
            let s := set_balance s (Int32.sub (balance s) amount) in
            match saveData s w (disk e) with
            | (w, Some err) =>
                let w := log_Print w ("Error saving data: " +:+ Error err) in
                (s, w, http_Error rw "Internal Server Error"
                         StatusInternalServerError)
            | (w, None) =>
                let user := Authorization r in
                let w := logTransaction w e user "SPEND" amount in
                (s, w, Fprint rw (Text (pretty (balance s))))
            end
      end.

(** [handleSetBudget] *)
Definition handleSetBudget : HandlerFunc :=
  fun s w e rw r =>
    if negb (String.eqb (Method r) "POST") then
      (s, w, http_Error rw "Method not allowed" StatusMethodNotAllowed)
    else
      match Decode (Payload r) with
      | None => (s, w, http_Error rw "Invalid body" StatusBadRequest)
      | Some b =>
          if (b <? 0) || (b >? maxBalance) then
            (s, w, http_Error rw "Invalid budget amount" StatusBadRequest)
          else
            let oldBudget := budget s in
            let diff := Int32.sub b oldBudget in
            let s := set_budget s b in
            let s := set_balance s (Int32.add (balance s) diff) in
            match saveData s w (disk e) with
            | (w, Some err) =>
                let w := log_Print w ("Error saving data: " +:+ Error err) in
                (s, w, http_Error rw "Internal Server Error"
                         StatusInternalServerError)
            | (w, None) =>
                let user := Authorization r in
                let w := logTransaction w e user "BUDGET_CHANGE" b in
                let rw := Header_Set rw "Content-Type" "application/json" in
                (s, w, Fprint rw (Json (balance s) (budget s)))
            end
      end.

(** ** The service: routes of [main] and start-up *)

(** The four routes registered on the default mux; any other path gets the
    mux's 404. *)
Definition serve (s : Server) (w : World) (e : Env) (r : Request)
    : Server * World * ResponseWriter :=
  if String.eqb (Path r) "/get" then authMiddleware handleGet s w e newWriter r
  else if String.eqb (Path r) "/set" then authMiddleware handleSet s w e newWriter r
  else if String.eqb (Path r) "/spend" then
    authMiddleware handleSpend s w e newWriter r
  else if String.eqb (Path r) "/set_budget" then
    authMiddleware handleSetBudget s w e newWriter r
  else (s, w, http_Error newWriter "404 page not found" StatusNotFound).

(** [main] up to the point where it listens: a zero [Server] with the
    loaded allowlist, then [loadData], whose error is only logged. *)
Definition startup (allow : gmap string bool) (w : World)
    (read_fails : bool) (f : fault) : Server * World :=
  let srv := mkServer 0 0 allow in
  match loadData srv w read_fails f with
  | (srv, w, Some err) =>
      (srv, log_Print w
              ("Warning: Failed to load data (starting at 0): " +:+ Error err))
  | (srv, w, None) => (srv, w)
  end.

(** The service handling a sequence of requests, one at a time. *)
Fixpoint run (s : Server) (w : World) (rs : list (Env * Request))
    : Server * World * list ResponseWriter :=
  match rs with
  | [] => (s, w, [])
  | (e, r) :: rs =>
      let '(s, w, rw) := serve s w e r in
      let '(s, w, out) := run s w rs in
      (s, w, rw :: out)
  end.

(** * Vocabulary of the statements

    Names for the outcomes of the code above; the lemmas below relate them
    to the handlers. *)

(** The in-memory state each mutating handler assigns before it saves. *)
Definition Set_state (s : Server) (a : Z) : Server := set_balance s a.

Definition Spend_state (s : Server) (a : Z) : Server :=
  set_balance s (Int32.sub (balance s) a).

Definition SetBudget_state (s : Server) (a : Z) : Server :=
  set_balance (set_budget s a) (Int32.add (balance s) (Int32.sub a (budget s))).

(** The world after a successful save of [s'] and its audit line. *)
Definition committed (w : World) (e : Env) (r : Request) (a : Z)
    (s' : Server) (action : string) : World :=
  logTransaction (set_dbFile w (Some (encode s'))) e (Authorization r) action a.

(** The world and response after a failed save of [s']. *)
Definition aborted (w : World) (e : Env) (rw : ResponseWriter)
    (s' : Server) (err : error) : World * ResponseWriter :=
  (log_Print (saveData s' w (disk e)).1 ("Error saving data: " +:+ Error err),
   http_Error rw "Internal Server Error" StatusInternalServerError).

(** The three CORS headers the gate sets before anything else. *)
Definition with_cors (rw : ResponseWriter) : ResponseWriter :=
  Header_Set
    (Header_Set
       (Header_Set rw "Access-Control-Allow-Origin" "*")
       "Access-Control-Allow-Methods" "GET, POST, OPTIONS")
    "Access-Control-Allow-Headers" "Content-Type, Authorization".

(** The credential is the empty string or has no [true] entry in the
    allowlist. *)
Definition denied (s : Server) (user : string) : Prop :=
  user = EmptyString \/ users s !! user <> Some true.

(** The four paths [main] registers. *)
Definition registered (path : string) : Prop :=
  path = "/get" \/ path = "/set" \/ path = "/spend" \/ path = "/set_budget".

(** The handler [main] registers for a path, behind the gate. *)
Definition route (path : string) : option HandlerFunc :=
  if String.eqb path "/get" then Some handleGet
  else if String.eqb path "/set" then Some handleSet
  else if String.eqb path "/spend" then Some handleSpend
  else if String.eqb path "/set_budget" then Some handleSetBudget
  else None.

(** Concrete deployments used to exercise the statements. *)
Module Scenario.

Definition allow : gmap string bool := {[ "alice" := true ]}.

(** No state file yet, empty logs. *)
Definition fresh : World := mkWorld None [] [] [].

Definition clock (f : fault) : Env := mkEnv "2024-05-01" "09:30:00" f.

Definition request (method path user : string) (p : payload) : Request :=
  mkRequest method path user "192.0.2.7:40000" p.

Definition post (path : string) (n : Z) : Env * Request :=
  (clock NoFault, request "POST" path "alice" (Number n)).

(** The service after start-up without a state file. *)
Definition boot : Server * World := startup allow fresh false NoFault.

End Scenario.

(** ** The three mutations, uniformly *)

Inductive mutation := OpSet | OpSpend | OpSetBudget.

Definition path_of (op : mutation) : string :=
  match op with
  | OpSet => "/set" | OpSpend => "/spend" | OpSetBudget => "/set_budget"
  end.

Definition handler_of (op : mutation) : HandlerFunc :=
  match op with
  | OpSet => handleSet | OpSpend => handleSpend | OpSetBudget => handleSetBudget
  end.

Definition action_of (op : mutation) : string :=
  match op with
  | OpSet => "SET" | OpSpend => "SPEND" | OpSetBudget => "BUDGET_CHANGE"
  end.

(** The range check each handler applies to the decoded value. *)
Definition valid (op : mutation) (a : Z) : Prop :=
  match op with
  | OpSet => a <= maxBalance
  | OpSpend => -100000000 <= a <= 100000000
  | OpSetBudget => 0 <= a <= maxBalance
  end.

(** The in-memory state the handler assigns before it saves. *)
Definition apply_op (op : mutation) (s : Server) (a : Z) : Server :=
  match op with
  | OpSet => Set_state s a
  | OpSpend => Spend_state s a
  | OpSetBudget => SetBudget_state s a
  end.

(** ** Persistence failures *)

(** The reading under which a mutation that cannot be persisted leaves the
    server as it was, so that memory still equals the last saved state. *)
Definition rolls_back_on_persist_failure (op : mutation) : Prop :=
  forall (s : Server) (w : World) (e : Env) (r : Request),
    dbFile w = Some (encode s) ->
    Path r = path_of op ->
    Status (serve s w e r).2 = StatusInternalServerError ->
    (serve s w e r).1.1 = s.

(** ** Start-up on a state file of unexpected length *)

(** The reading under which, after a load that failed on the length of the
    file, no request changes the ledger or the file. *)
Definition refuses_mutations_after_corrupt_load : Prop :=
  forall (allow : gmap string bool) (w : World) (data : list byte)
         (e : Env) (r : Request),
    dbFile w = Some data ->
    length data <> 4%nat -> length data <> 8%nat ->
    let boot := startup allow w false NoFault in
    let out := serve boot.1 boot.2 e r in
    (balance out.1.1, budget out.1.1) = (0, 0) /\ dbFile out.1.2 = Some data.

(** * The rest of the program

    [loadUsers], [main] up to the point where it listens, and the
    persistence functions of the earlier release of the service, whose
    state file the current [loadData] still accepts. *)

Definition set_users (s : Server) (u : gmap string bool) : Server :=
  mkServer (balance s) (budget s) u.

(** What [os.Open(usersFile)] and the [bufio.Scanner] over the file
    deliver: the open may fail; otherwise the scanner yields lines until the
    end of the file or until it stops on an error of its own. *)
Inductive users_source :=
| UsersUnreadable
| UsersLines (lines : list string) (scan_fails : bool).

Section LoadUsers.

(** [strings.TrimSpace], from the Go library. *)
Variable TrimSpace : string -> string.

(** The body of the scanning loop of [loadUsers]. *)
Definition addUser (s : Server) (line : string) : Server :=
  let user := TrimSpace line in
  if negb (String.eqb user EmptyString) then
    set_users s (<[user := true]> (users s))
  else s.

(** [loadUsers] *)
Definition loadUsers (s : Server) (src : users_source) : Server * option error :=
  match src with
  | UsersUnreadable => (s, Some (ErrOS "open"))
  | UsersLines lines scan_fails =>
      (foldl addUser s lines,
       if scan_fails then Some (ErrOS "scan") else None)
  end.

(** [main] from its first statement to the registration of the routes.
    [None] is the exit through [log.Fatalf]: a log file that cannot be
    opened, or an allowlist that cannot be loaded. *)
Definition main (tl_opens ul_opens : bool) (src : users_source) (w : World)
    (read_fails : bool) (f : fault) : option (Server * World) :=
  if negb tl_opens then None
  else if negb ul_opens then None
  else
    match loadUsers (mkServer 0 0 ∅) src with
    | (_, Some _) => None
    | (srv, None) => Some (startup (users srv) w read_fails f)
    end.

End LoadUsers.

(** The earlier release: one [int32] balance in a four-byte state file. *)
Module Legacy.

Record Server := mkServer {
  balance : Z;                (* int32 *)
  users : gmap string bool
}.

Inductive error :=
| ErrOS (call : string)
| ErrInvalidDataLength
| PanicIndexOutOfRange.

(** The four bytes [saveBalance] builds. *)
Definition encode (s : Server) : list byte :=
  LittleEndian.PutUint32 (replicate 4 x00) 0 (Int32.to_uint32 (balance s)).

(** [saveBalance] *)
Definition saveBalance (s : Server) (w : World) (f : fault)
    : World * option error :=
  let data := encode s in
  match f with
  | OpenFails => (w, Some (ErrOS "open"))
  | WriteFails n => (set_dbFile w (Some (take n data)), Some (ErrOS "write"))
  | SyncFails => (set_dbFile w (Some data), Some (ErrOS "sync"))
  | NoFault => (set_dbFile w (Some data), None)
  end.

(** [loadBalance] *)
Definition loadBalance (s : Server) (w : World) (read_fails : bool)
    : Server * option error :=
  if read_fails then (s, Some (ErrOS "read"))
  else
    match dbFile w with
    | None => (mkServer 0 (users s), None)
    | Some data =>
        if negb (length data =? 4)%nat then (s, Some ErrInvalidDataLength)
        else
          match LittleEndian.Uint32 data with
          | None => (s, Some PanicIndexOutOfRange)
          | Some u => (mkServer (Int32.of_Z u) (users s), None)
          end
    end.

End Legacy.

(** ** More vocabulary *)

(** The method each registered path answers to. *)
Definition method_of (path : string) : string :=
  if String.eqb path "/get" then "GET" else "POST".

(** The text of the 400 each mutating handler gives on a value out of its
    range. *)
Definition reject_msg (op : mutation) : string :=
  match op with
  | OpSet => "Amount exceeds limit"
  | OpSpend => "Transaction too large"
  | OpSetBudget => "Invalid budget amount"
  end.

(** What each mutating handler writes on success. *)
Definition response_of (op : mutation) (s : Server) (a : Z)
    (rw : ResponseWriter) : ResponseWriter :=
  match op with
  | OpSet => Fprint rw (Text (pretty a))
  | OpSpend => Fprint rw (Text (pretty (Int32.sub (balance s) a)))
  | OpSetBudget =>
      Fprint (Header_Set rw "Content-Type" "application/json")
        (Json (Int32.add (balance s) (Int32.sub a (budget s))) a)
  end.

(** The paths a request can take through [serve], each with its result. *)
Inductive outcome (s : Server) (w : World) (e : Env) (r : Request)
    : Server * World * ResponseWriter -> Prop :=
| out_not_found :
    route (Path r) = None ->
    outcome s w e r
      (s, w, http_Error newWriter "404 page not found" StatusNotFound)
| out_options :
    registered (Path r) -> Method r = "OPTIONS" ->
    outcome s w e r (s, w, WriteHeader (with_cors newWriter) StatusOK)
| out_denied :
    registered (Path r) -> Method r <> "OPTIONS" ->
    denied s (Authorization r) ->
    outcome s w e r
      (s, logUnauthorized w e (Authorization r) (RemoteAddr r),
       http_Error (with_cors newWriter) "Unauthorized" StatusUnauthorized)
| out_method :
    registered (Path r) -> Method r <> "OPTIONS" ->
    ~ denied s (Authorization r) ->
    Method r <> method_of (Path r) ->
    outcome s w e r
      (s, w, http_Error (with_cors newWriter) "Method not allowed"
               StatusMethodNotAllowed)
| out_get :
    Path r = "/get" -> Method r = "GET" ->
    ~ denied s (Authorization r) ->
    outcome s w e r
      (s, w, Fprint (Header_Set (with_cors newWriter)
                       "Content-Type" "application/json")
               (Json (balance s) (budget s)))
| out_bad_body (op : mutation) :
    Path r = path_of op -> Method r = "POST" ->
    ~ denied s (Authorization r) ->
    Decode (Payload r) = None ->
    outcome s w e r
      (s, w, http_Error (with_cors newWriter) "Invalid body" StatusBadRequest)
| out_invalid (op : mutation) (a : Z) :
    Path r = path_of op -> Method r = "POST" ->
    ~ denied s (Authorization r) ->
    Decode (Payload r) = Some a -> ~ valid op a ->
    outcome s w e r
      (s, w, http_Error (with_cors newWriter) (reject_msg op) StatusBadRequest)
| out_saved (op : mutation) (a : Z) :
    Path r = path_of op -> Method r = "POST" ->
    ~ denied s (Authorization r) ->
    Decode (Payload r) = Some a -> valid op a ->
    disk e = NoFault ->
    outcome s w e r
      (apply_op op s a, committed w e r a (apply_op op s a) (action_of op),
       response_of op s a (with_cors newWriter))
| out_failed (op : mutation) (a : Z) (err : error) :
    Path r = path_of op -> Method r = "POST" ->
    ~ denied s (Authorization r) ->
    Decode (Payload r) = Some a -> valid op a ->
    (saveData (apply_op op s a) w (disk e)).2 = Some err ->
    outcome s w e r
      (apply_op op s a,
       (aborted w e (with_cors newWriter) (apply_op op s a) err).1,
       (aborted w e (with_cors newWriter) (apply_op op s a) err).2).

(** The requests of a run that were answered with a given status. *)
Definition count_status (code : Z) (out : list ResponseWriter) : nat :=
  length (filter (fun rw => Status rw = code) out).

(** The POSTs of a run that were answered with 200. *)
Fixpoint count_accepted (rs : list (Env * Request)) (out : list ResponseWriter)
    : nat :=
  match rs, out with
  | (_, r) :: rs, rw :: out =>
      (if decide (Method r = "POST" /\ Status rw = StatusOK) then 1 else 0)
      + count_accepted rs out
  | _, _ => 0
  end%nat.

(** A POST for [op] carrying the integer [z], served at the clock of [e]
    without a disk fault. *)
Definition mutation_request (op : mutation) (user addr : string)
    (ez : Env * Z) : Env * Request :=
  (mkEnv (now_date ez.1) (now_time ez.1) NoFault,
   mkRequest "POST" (path_of op) user addr (Number ez.2)).

(** The integers a mutating route accepts in the body: the handler's range
    check within what fits the [int32] field. *)
Definition accepts (op : mutation) (z : Z) : Prop :=
  match op with
  | OpSet => Int32.min_int <= z <= maxBalance
  | OpSpend => -100000000 <= z <= 100000000
  | OpSetBudget => 0 <= z <= maxBalance
  end.

(** The sum of a list of amounts. *)
Definition total (l : list Z) : Z := foldr Z.add 0 l.

(** The ASCII case of [strings.TrimSpace]: leading and trailing bytes among
    tab, newline, vertical tab, form feed, carriage return and space are
    dropped (the library also drops the Unicode spaces beyond ASCII). Used to
    run [loadUsers] and [main] on concrete files. *)
Definition is_ascii_space (c : ascii) : bool :=
  let n := nat_of_ascii c in
  ((9 <=? n) && (n <=? 13) || (n =? 32))%nat.

Fixpoint trim_left (s : string) : string :=
  match s with
  | String c s' => if is_ascii_space c then trim_left s' else s
  | EmptyString => EmptyString
  end.

Fixpoint trim_right (s : string) : string :=
  match s with
  | EmptyString => EmptyString
  | String c s' =>
      match trim_right s' with
      | EmptyString => if is_ascii_space c then EmptyString
                       else String c EmptyString
      | t => String c t
      end
  end.

Definition trim_ascii (s : string) : string := trim_right (trim_left s).

(** * Lemmas about the codec, the handlers and the service *)

Lemma byte_val_range (b : byte) : 0 <= byte_val b < 256.
Proof.
  unfold byte_val. pose proof (Byte.to_N_bounded b). lia.
Qed.

Lemma byte_val_of (v : Z) : byte_val (byte_of v) = Z.land v 255.
Proof.
  unfold byte_val, byte_of.
  assert (Hr : 0 <= Z.land v 255 < 256).
  { change 255 with (Z.ones 8). rewrite Z.land_ones by lia.
    apply Z.mod_pos_bound. lia. }
  destruct (Byte.of_N (Z.to_N (Z.land v 255))) as [b|] eqn:E.
  - simpl. apply Byte.to_of_N in E. rewrite E. lia.
  - apply Byte.of_N_None_iff in E. lia.
Qed.

Lemma byte_of_val (b : byte) : byte_of (byte_val b) = b.
Proof.
  unfold byte_of.
  pose proof (byte_val_range b) as Hr.
  assert (E : Z.land (byte_val b) 255 = byte_val b).
  { change 255 with (Z.ones 8). rewrite Z.land_ones by lia.
    apply Z.mod_small. lia. }
  rewrite E. unfold byte_val. rewrite N2Z.id, Byte.of_to_N. reflexivity.
Qed.

(** ** Bit-level facts about the little-endian codec *)

Section Codec.

Lemma byte_val_bits (b : byte) (i : Z) :
  Z.testbit (byte_val b) i = (i <? 8) && Z.testbit (byte_val b) i.
Proof.
  pose proof (byte_val_range b) as Hr.
  rewrite <- (Z.mod_small (byte_val b) (2 ^ 8)) at 1 by lia.
  apply Z.testbit_mod_pow2. lia.
Qed.

Lemma byte_of_bits (v : Z) (i : Z) :
  Z.testbit (byte_val (byte_of v)) i = (i <? 8) && Z.testbit v i.
Proof.
  rewrite byte_val_of. change 255 with (Z.ones 8).
  rewrite Z.land_ones by lia. apply Z.testbit_mod_pow2. lia.
Qed.

Lemma byte_val_inj (a b : byte) : byte_val a = byte_val b -> a = b.
Proof.
  intros E. rewrite <- (byte_of_val a), <- (byte_of_val b), E. reflexivity.
Qed.

Lemma le32_bits (b0 b1 b2 b3 : byte) (i : Z) :
  0 <= i ->
  Z.testbit (le32 b0 b1 b2 b3) i =
    if i <? 8 then Z.testbit (byte_val b0) i
    else if i <? 16 then Z.testbit (byte_val b1) (i - 8)
    else if i <? 24 then Z.testbit (byte_val b2) (i - 16)
    else Z.testbit (byte_val b3) (i - 24).
Proof.
  intros Hi. unfold le32.
  rewrite !Z.lor_spec, !Z.shiftl_spec by lia.
  rewrite (byte_val_bits b0 i), (byte_val_bits b1 (i - 8)),
          (byte_val_bits b2 (i - 16)).
  destruct (Z.ltb_spec i 8); [|destruct (Z.ltb_spec i 16);
                                [|destruct (Z.ltb_spec i 24)]];
    repeat match goal with
           | |- context [Z.testbit _ ?j] =>
               rewrite (Z.testbit_neg_r _ j) by lia
           | |- context [?j <? 8] =>
               first [ replace (j <? 8) with true by (symmetry; apply Z.ltb_lt; lia)
                     | replace (j <? 8) with false by (symmetry; apply Z.ltb_ge; lia) ]
           end;
    simpl; rewrite ?orb_false_r; reflexivity.
Qed.

Lemma le32_range (b0 b1 b2 b3 : byte) : 0 <= le32 b0 b1 b2 b3 < Int32.modulus.
Proof.
  assert (Hnn : 0 <= le32 b0 b1 b2 b3).
  { unfold le32.
    pose proof (byte_val_range b0). pose proof (byte_val_range b1).
    pose proof (byte_val_range b2). pose proof (byte_val_range b3).
    repeat (apply Z.lor_nonneg; split); try apply Z.shiftl_nonneg; lia. }
  split; [exact Hnn|].
  destruct (Z.eq_dec (le32 b0 b1 b2 b3) 0) as [->|Hne]; [reflexivity|].
  change Int32.modulus with (2 ^ 32).
  apply Z.log2_lt_pow2; [lia|].
  destruct (Z.lt_ge_cases (Z.log2 (le32 b0 b1 b2 b3)) 32) as [Hlt|Hge];
    [exact Hlt|exfalso].
  pose proof (Z.bit_log2 (le32 b0 b1 b2 b3) ltac:(lia)) as Hbit.
  rewrite le32_bits in Hbit by lia.
  repeat match type of Hbit with
         | context [?j <? ?k] =>
             replace (j <? k) with false in Hbit by (symmetry; apply Z.ltb_ge; lia)
         end.
  rewrite byte_val_bits in Hbit.
  replace (Z.log2 (le32 b0 b1 b2 b3) - 24 <? 8) with false in Hbit
    by (symmetry; apply Z.ltb_ge; lia).
  discriminate.
Qed.

(** Reading back what [PutUint32] wrote gives the value modulo 2^32. *)
Lemma le32_put (v : Z) :
  le32 (byte_of v) (byte_of (Z.shiftr v 8)) (byte_of (Z.shiftr v 16))
       (byte_of (Z.shiftr v 24)) = v mod Int32.modulus.
Proof.
  apply Z.bits_inj'. intros i Hi.
  rewrite le32_bits by lia. change Int32.modulus with (2 ^ 32).
  rewrite Z.testbit_mod_pow2 by lia.
  destruct (Z.ltb_spec i 8); [|destruct (Z.ltb_spec i 16);
                                [|destruct (Z.ltb_spec i 24)]];
    rewrite byte_of_bits, ?Z.shiftr_spec by lia;
    repeat match goal with
           | |- context [?j <? ?k] =>
               first [ replace (j <? k) with true by (symmetry; apply Z.ltb_lt; lia)
                     | replace (j <? k) with false by (symmetry; apply Z.ltb_ge; lia) ]
           end;
    simpl; try (f_equal; lia).
  destruct (Z.ltb_spec (i - 24) 8), (Z.ltb_spec i 32); try lia; simpl;
    try reflexivity; f_equal; lia.
Qed.

(** Writing what [Uint32] read gives the four bytes back. *)
Lemma put_le32 (b0 b1 b2 b3 : byte) :
  let v := le32 b0 b1 b2 b3 in
  byte_of v = b0 /\ byte_of (Z.shiftr v 8) = b1 /\
  byte_of (Z.shiftr v 16) = b2 /\ byte_of (Z.shiftr v 24) = b3.
Proof.
  intros v.
  repeat split; apply byte_val_inj, Z.bits_inj'; intros i Hi;
    rewrite byte_of_bits, ?Z.shiftr_spec by lia; subst v;
    rewrite le32_bits by lia;
    match goal with
    | |- _ = Z.testbit (byte_val ?b) i => rewrite (byte_val_bits b i)
    end;
    destruct (Z.ltb_spec i 8); simpl; try reflexivity;
    repeat match goal with
           | |- context [?j <? ?k] =>
               first [ replace (j <? k) with true by (symmetry; apply Z.ltb_lt; lia)
                     | replace (j <? k) with false by (symmetry; apply Z.ltb_ge; lia) ]
           end; f_equal; lia.
Qed.

Lemma of_Z_in_range (z : Z) : Int32.in_range (Int32.of_Z z).
Proof.
  unfold Int32.in_range, Int32.of_Z, Int32.min_int, Int32.max_int, Int32.modulus.
  pose proof (Z.mod_pos_bound (z + 2147483648) 4294967296). lia.
Qed.

Lemma of_Z_id (z : Z) : Int32.in_range z -> Int32.of_Z z = z.
Proof.
  unfold Int32.in_range, Int32.of_Z, Int32.min_int, Int32.max_int, Int32.modulus.
  intros Hr. rewrite Z.mod_small by lia. lia.
Qed.

(** [int32(uint32(x)) = x] for every [int32] value [x]. *)
Lemma of_Z_to_uint32 (z : Z) :
  Int32.in_range z -> Int32.of_Z (Int32.to_uint32 z) = z.
Proof.
  unfold Int32.in_range, Int32.of_Z, Int32.to_uint32,
    Int32.min_int, Int32.max_int, Int32.modulus.
  intros Hr.
  rewrite Zplus_mod_idemp_l. rewrite Z.mod_small by lia. lia.
Qed.

(** [uint32(int32(u)) = u] for every [uint32] value [u]. *)
Lemma to_uint32_of_Z (u : Z) :
  0 <= u < Int32.modulus -> Int32.to_uint32 (Int32.of_Z u) = u.
Proof.
  unfold Int32.of_Z, Int32.to_uint32, Int32.modulus. intros Hr.
  rewrite Zminus_mod_idemp_l.
  replace (u + 2147483648 - 2147483648) with u by lia.
  apply Z.mod_small. lia.
Qed.

Lemma in_rangeb_spec (z : Z) : Int32.in_rangeb z = true <-> Int32.in_range z.
Proof.
  unfold Int32.in_rangeb, Int32.in_range.
  rewrite andb_true_iff, Z.leb_le, Z.leb_le. reflexivity.
Qed.

End Codec.

(** ** Persistence: what [saveData] writes and [loadData] reads *)

Section Persistence.

Lemma encode_bytes (s : Server) :
  let ub := Int32.to_uint32 (balance s) in
  let ug := Int32.to_uint32 (budget s) in
  encode s =
    [byte_of ub; byte_of (Z.shiftr ub 8); byte_of (Z.shiftr ub 16);
     byte_of (Z.shiftr ub 24);
     byte_of ug; byte_of (Z.shiftr ug 8); byte_of (Z.shiftr ug 16);
     byte_of (Z.shiftr ug 24)].
Proof. reflexivity. Qed.

Lemma encode_length (s : Server) : length (encode s) = 8%nat.
Proof. reflexivity. Qed.

Lemma to_uint32_idemp (z : Z) :
  Int32.to_uint32 z mod Int32.modulus = Int32.to_uint32 z.
Proof.
  unfold Int32.to_uint32, Int32.modulus. apply Z.mod_mod. lia.
Qed.

(** [loadData] on the bytes of [encode s] restores both fields of [s]. *)
Lemma loadData_encode (s s' : Server) (w : World) (f : fault) :
  Server_ok s ->
  dbFile w = Some (encode s) ->
  loadData s' w false f = (mkServer (balance s) (budget s) (users s'), w, None).
Proof.
  intros [Hb Hg] Hfile. unfold loadData. rewrite Hfile.
  rewrite encode_length. simpl Nat.eqb. cbv iota.
  rewrite encode_bytes. cbv zeta.
  unfold slice, LittleEndian.Uint32. simpl.
  fold (le32 (byte_of (Int32.to_uint32 (balance s)))
             (byte_of (Z.shiftr (Int32.to_uint32 (balance s)) 8))
             (byte_of (Z.shiftr (Int32.to_uint32 (balance s)) 16))
             (byte_of (Z.shiftr (Int32.to_uint32 (balance s)) 24))).
  fold (le32 (byte_of (Int32.to_uint32 (budget s)))
             (byte_of (Z.shiftr (Int32.to_uint32 (budget s)) 8))
             (byte_of (Z.shiftr (Int32.to_uint32 (budget s)) 16))
             (byte_of (Z.shiftr (Int32.to_uint32 (budget s)) 24))).
  rewrite !le32_put, !to_uint32_idemp.
  unfold set_budget, set_balance. simpl.
  rewrite !of_Z_to_uint32 by assumption. reflexivity.
Qed.

(** A successful [saveData] leaves exactly [encode s] in the file and
    touches nothing else. *)
Lemma saveData_ok (s : Server) (w w' : World) (f : fault) :
  saveData s w f = (w', None) ->
  f = NoFault /\ w' = set_dbFile w (Some (encode s)).
Proof.
  unfold saveData. destruct f; intros E; inversion E; auto.
Qed.

Lemma saveData_logs (s : Server) (w : World) (f : fault) :
  transLog (saveData s w f).1 = transLog w /\
  unauthLog (saveData s w f).1 = unauthLog w /\
  stdLog (saveData s w f).1 = stdLog w.
Proof. destruct f; simpl; auto. Qed.

Lemma saveData_fault (s : Server) (w : World) (f : fault) :
  f <> NoFault -> exists err, (saveData s w f).2 = Some err.
Proof. destruct f; simpl; intros H; try congruence; eauto. Qed.

(** A legacy file: four bytes are read as the balance, and the file that
    [saveData] writes next is those bytes followed by four zero bytes. *)
Lemma encode_legacy (b0 b1 b2 b3 : byte) (u : gmap string bool) :
  encode (mkServer (Int32.of_Z (le32 b0 b1 b2 b3)) 0 u) =
    [b0; b1; b2; b3; x00; x00; x00; x00].
Proof.
  rewrite encode_bytes. cbv zeta. simpl balance. simpl budget.
  rewrite to_uint32_of_Z by apply le32_range.
  destruct (put_le32 b0 b1 b2 b3) as (-> & -> & -> & ->).
  reflexivity.
Qed.

(** [loadData] never runs into the slice-bounds panic: each [Uint32] it
    calls gets four bytes. *)
Lemma loadData_no_panic (s : Server) (w : World) (rf : bool) (f : fault) :
  (loadData s w rf f).2 <> Some PanicIndexOutOfRange.
Proof.
  unfold loadData. destruct rf; [simpl; congruence|].
  destruct (dbFile w) as [data|]; [|simpl; congruence].
  destruct data as [|b0 [|b1 [|b2 [|b3 [|b4 [|b5 [|b6 [|b7 [|b8 tl]]]]]]]]];
    simpl; try congruence.
  destruct f; simpl; congruence.
Qed.

(** [loadData] always leaves [int32] values in the server. *)
Lemma loadData_ok (s : Server) (w : World) (rf : bool) (f : fault) :
  Server_ok s -> Server_ok (loadData s w rf f).1.1.
Proof.
  intros Hs. unfold loadData. destruct rf; [exact Hs|].
  destruct (dbFile w) as [data|].
  2:{ split; simpl; unfold Int32.in_range, Int32.min_int, Int32.max_int; lia. }
  destruct (length data =? 4)%nat.
  - destruct (LittleEndian.Uint32 data) as [u|]; [|exact Hs].
    destruct (saveData _ _ f) as [w1 err]. split; simpl.
    + apply of_Z_in_range.
    + unfold Int32.in_range, Int32.min_int, Int32.max_int; lia.
  - destruct (length data =? 8)%nat; [|exact Hs].
    destruct (LittleEndian.Uint32 (slice data 0 4)) as [u0|]; [|exact Hs].
    destruct (LittleEndian.Uint32 (slice data 4 8)) as [u1|]; [|exact Hs].
    split; simpl; apply of_Z_in_range.
Qed.

End Persistence.

(** ** Handlers keep [int32] values in the server *)

Section Invariant.

Lemma Decode_in_range (p : payload) (a : Z) :
  Decode p = Some a -> Int32.in_range a.
Proof.
  destruct p as [|z]; simpl; [discriminate|].
  destruct (Int32.in_rangeb z) eqn:E; [|discriminate].
  intros [= <-]. apply in_rangeb_spec, E.
Qed.

Lemma Decode_Number (a : Z) : Int32.in_range a -> Decode (Number a) = Some a.
Proof.
  intros H. simpl. apply in_rangeb_spec in H. rewrite H. reflexivity.
Qed.

Local Ltac step :=
  match goal with
  | |- context [negb (String.eqb ?a ?b)] => destruct (String.eqb a b)
  | |- context [String.eqb ?a ?b] => destruct (String.eqb a b)
  | |- context [match Decode ?p with _ => _ end] =>
      let E := fresh "E" in destruct (Decode p) eqn:E
  | |- context [if ?c then _ else _] => destruct c
  | |- context [match saveData ?s ?w ?f with _ => _ end] =>
      let err := fresh "err" in destruct (saveData s w f) as [? [err|]]
  end; simpl.

Lemma handleGet_ok s w e rw r :
  Server_ok s -> Server_ok (handleGet s w e rw r).1.1.
Proof. intros Hs. unfold handleGet. repeat step; exact Hs. Qed.

Lemma handleSet_ok s w e rw r :
  Server_ok s -> Server_ok (handleSet s w e rw r).1.1.
Proof.
  intros Hs. unfold handleSet. repeat step; try exact Hs;
    (split; simpl; [eapply Decode_in_range; eassumption|apply Hs]).
Qed.

Lemma handleSpend_ok s w e rw r :
  Server_ok s -> Server_ok (handleSpend s w e rw r).1.1.
Proof.
  intros Hs. unfold handleSpend. repeat step; try exact Hs;
    (split; simpl; [apply of_Z_in_range|apply Hs]).
Qed.

Lemma handleSetBudget_ok s w e rw r :
  Server_ok s -> Server_ok (handleSetBudget s w e rw r).1.1.
Proof.
  intros Hs. unfold handleSetBudget. repeat step; try exact Hs;
    (split; simpl; [apply of_Z_in_range|eapply Decode_in_range; eassumption]).
Qed.

Lemma authMiddleware_ok (next : HandlerFunc) s w e rw r :
  (forall s w e rw r, Server_ok s -> Server_ok (next s w e rw r).1.1) ->
  Server_ok s -> Server_ok (authMiddleware next s w e rw r).1.1.
Proof.
  intros Hnext Hs. unfold authMiddleware.
  destruct (String.eqb (Method r) "OPTIONS"); [exact Hs|].
  destruct (_ || _); [exact Hs|]. apply Hnext, Hs.
Qed.

Lemma serve_ok s w e r : Server_ok s -> Server_ok (serve s w e r).1.1.
Proof.
  intros Hs. unfold serve.
  repeat match goal with
         | |- context [String.eqb (Path r) ?p] => destruct (String.eqb (Path r) p)
         end; try exact Hs; apply authMiddleware_ok; try exact Hs; intros.
  - apply handleGet_ok; assumption.
  - apply handleSet_ok; assumption.
  - apply handleSpend_ok; assumption.
  - apply handleSetBudget_ok; assumption.
Qed.

Lemma run_ok (rs : list (Env * Request)) :
  forall s w, Server_ok s -> Server_ok (run s w rs).1.1.
Proof.
  induction rs as [|[e r] rs IH]; intros s w Hs; simpl; [exact Hs|].
  pose proof (serve_ok s w e r Hs) as H1.
  destruct (serve s w e r) as [[s1 w1] rw1]. simpl in H1.
  specialize (IH s1 w1 H1).
  destruct (run s1 w1 rs) as [[s2 w2] out]. exact IH.
Qed.

Lemma startup_ok allow w rf f : Server_ok (startup allow w rf f).1.
Proof.
  unfold startup.
  assert (H0 : Server_ok (mkServer 0 0 allow)).
  { split; simpl; unfold Int32.in_range, Int32.min_int, Int32.max_int; lia. }
  pose proof (loadData_ok _ w rf f H0) as H.
  destruct (loadData (mkServer 0 0 allow) w rf f) as [[s1 w1] [err|]]; exact H.
Qed.

End Invariant.

(** ** What each mutating handler does on each of its paths *)

Section HandlerPaths.

Variables (s : Server) (w : World) (e : Env) (rw : ResponseWriter)
          (r : Request) (a : Z).
Hypothesis Hpost : Method r = "POST".
Hypothesis Hbody : Decode (Payload r) = Some a.

(** Closes a goal about the branch taken when saving [st] fails under
    [Hf : disk e <> NoFault]. *)
Local Ltac after_failed_save st :=
  match goal with
  | Hf : disk e <> NoFault |- _ =>
      let err := fresh "err" in
      let Herr := fresh "Herr" in
      destruct (saveData_fault st w (disk e) Hf) as [err Herr];
      exists err;
      unfold aborted, Set_state, Spend_state, SetBudget_state in *;
      simpl in *;
      destruct (saveData _ w (disk e)) as [? [?|]];
      simpl in Herr; [injection Herr as ->; auto | discriminate Herr]
  end.

Lemma handleSet_success :
  a <= maxBalance -> disk e = NoFault ->
  handleSet s w e rw r =
    (Set_state s a, committed w e r a (Set_state s a) "SET",
     Fprint rw (Text (pretty a))).
Proof.
  intros Hv Hf. unfold handleSet. rewrite Hpost, Hbody. simpl.
  destruct (Z.gtb_spec a maxBalance); [lia|]. rewrite Hf. reflexivity.
Qed.

Lemma handleSpend_success :
  -100000000 <= a <= 100000000 -> disk e = NoFault ->
  handleSpend s w e rw r =
    (Spend_state s a, committed w e r a (Spend_state s a) "SPEND",
     Fprint rw (Text (pretty (Int32.sub (balance s) a)))).
Proof.
  intros Hv Hf. unfold handleSpend. rewrite Hpost, Hbody. simpl.
  destruct (Z.gtb_spec a 100000000); [lia|].
  destruct (Z.ltb_spec a (-100000000)); [lia|]. rewrite Hf. reflexivity.
Qed.

Lemma handleSetBudget_success :
  0 <= a <= maxBalance -> disk e = NoFault ->
  handleSetBudget s w e rw r =
    (SetBudget_state s a,
     committed w e r a (SetBudget_state s a) "BUDGET_CHANGE",
     Fprint (Header_Set rw "Content-Type" "application/json")
       (Json (Int32.add (balance s) (Int32.sub a (budget s))) a)).
Proof.
  intros Hv Hf. unfold handleSetBudget. rewrite Hpost, Hbody. simpl.
  destruct (Z.ltb_spec a 0); [lia|].
  destruct (Z.gtb_spec a maxBalance); [lia|]. rewrite Hf. reflexivity.
Qed.

Lemma handleSet_persist_failure :
  a <= maxBalance -> disk e <> NoFault ->
  exists err, (saveData (Set_state s a) w (disk e)).2 = Some err /\
    handleSet s w e rw r = (Set_state s a, (aborted w e rw (Set_state s a) err).1,
                            (aborted w e rw (Set_state s a) err).2).
Proof.
  intros Hv Hf. unfold handleSet. rewrite Hpost, Hbody. simpl.
  destruct (Z.gtb_spec a maxBalance); [lia|].
  after_failed_save (Set_state s a).
Qed.

Lemma handleSpend_persist_failure :
  -100000000 <= a <= 100000000 -> disk e <> NoFault ->
  exists err, (saveData (Spend_state s a) w (disk e)).2 = Some err /\
    handleSpend s w e rw r = (Spend_state s a, (aborted w e rw (Spend_state s a) err).1,
                              (aborted w e rw (Spend_state s a) err).2).
Proof.
  intros Hv Hf. unfold handleSpend. rewrite Hpost, Hbody. simpl.
  destruct (Z.gtb_spec a 100000000); [lia|].
  destruct (Z.ltb_spec a (-100000000)); [lia|]. simpl.
  after_failed_save (Spend_state s a).
Qed.

Lemma handleSetBudget_persist_failure :
  0 <= a <= maxBalance -> disk e <> NoFault ->
  exists err, (saveData (SetBudget_state s a) w (disk e)).2 = Some err /\
    handleSetBudget s w e rw r =
      (SetBudget_state s a, (aborted w e rw (SetBudget_state s a) err).1,
       (aborted w e rw (SetBudget_state s a) err).2).
Proof.
  intros Hv Hf. unfold handleSetBudget. rewrite Hpost, Hbody. simpl.
  destruct (Z.ltb_spec a 0); [lia|].
  destruct (Z.gtb_spec a maxBalance); [lia|]. simpl.
  after_failed_save (SetBudget_state s a).
Qed.

Lemma handleSpend_over_cap :
  (a > 100000000 \/ a < -100000000) ->
  handleSpend s w e rw r =
    (s, w, http_Error rw "Transaction too large" StatusBadRequest).
Proof.
  intros Hv. unfold handleSpend. rewrite Hpost, Hbody. simpl.
  destruct (Z.gtb_spec a 100000000); [reflexivity|].
  destruct (Z.ltb_spec a (-100000000)); [reflexivity|lia].
Qed.

End HandlerPaths.

(** ** Reading a response back: a 200 comes from the success path only *)

Section Accepted.

Variables (s : Server) (w : World) (e : Env) (rw : ResponseWriter)
          (r : Request).

Lemma saveData_None_NoFault (s1 : Server) (f : fault) :
  (saveData s1 w f).2 = None -> f = NoFault.
Proof. destruct f; simpl; congruence. Qed.

Local Ltac invert_status :=
  repeat match goal with
         | |- context [String.eqb ?x ?y] => destruct (String.eqb_spec x y)
         | |- context [match Decode ?p with _ => _ end] =>
             let E := fresh "E" in destruct (Decode p) eqn:E
         | |- context [?x >? ?y] => destruct (Z.gtb_spec x y)
         | |- context [?x <? ?y] => destruct (Z.ltb_spec x y)
         | |- context [match saveData ?s1 ?w1 ?f with _ => _ end] =>
             let E := fresh "E" in
             let err := fresh "err" in
             pose proof (saveData_None_NoFault s1 f) as E;
             destruct (saveData s1 w1 f) as [? [err|]]
         | _ => progress simpl
         end.

Lemma handleSet_accepted :
  Status (handleSet s w e rw r).2 = StatusOK ->
  exists a, Method r = "POST" /\ Decode (Payload r) = Some a /\
            a <= maxBalance /\ disk e = NoFault.
Proof.
  unfold handleSet. invert_status; intros Hst; try discriminate Hst.
  eexists; repeat split; eauto.
Qed.

Lemma handleSpend_accepted :
  Status (handleSpend s w e rw r).2 = StatusOK ->
  exists a, Method r = "POST" /\ Decode (Payload r) = Some a /\
            -100000000 <= a <= 100000000 /\ disk e = NoFault.
Proof.
  unfold handleSpend. invert_status; intros Hst; try discriminate Hst.
  eexists; repeat split; eauto; lia.
Qed.

Lemma handleSetBudget_accepted :
  Status (handleSetBudget s w e rw r).2 = StatusOK ->
  exists a, Method r = "POST" /\ Decode (Payload r) = Some a /\
            0 <= a <= maxBalance /\ disk e = NoFault.
Proof.
  unfold handleSetBudget. invert_status; intros Hst; try discriminate Hst.
  eexists; repeat split; eauto; lia.
Qed.

(** With a POST, [handleGet] answers 405 and touches nothing. *)
Lemma handleGet_post :
  Method r = "POST" ->
  handleGet s w e rw r =
    (s, w, http_Error rw "Method not allowed" StatusMethodNotAllowed).
Proof. intros H. unfold handleGet. rewrite H. reflexivity. Qed.

End Accepted.

(** ** The access gate *)

Section Gate.

Variables (next : HandlerFunc) (s : Server) (w : World) (e : Env)
          (rw : ResponseWriter) (r : Request).

Lemma denied_test (user : string) :
  denied s user <->
  String.eqb user EmptyString || negb (users_index s user) = true.
Proof.
  unfold denied, users_index. rewrite orb_true_iff, String.eqb_eq.
  destruct (users s !! user) as [[|]|]; simpl; split; intros [H|H];
    auto; try congruence.
Qed.

Lemma authMiddleware_options :
  Method r = "OPTIONS" ->
  authMiddleware next s w e rw r = (s, w, WriteHeader (with_cors rw) StatusOK).
Proof. intros H. unfold authMiddleware. rewrite H. reflexivity. Qed.

Lemma authMiddleware_denied :
  Method r <> "OPTIONS" -> denied s (Authorization r) ->
  authMiddleware next s w e rw r =
    (s, logUnauthorized w e (Authorization r) (RemoteAddr r),
     http_Error (with_cors rw) "Unauthorized" StatusUnauthorized).
Proof.
  intros Hm Hd. unfold authMiddleware.
  destruct (String.eqb_spec (Method r) "OPTIONS"); [contradiction|].
  apply denied_test in Hd. rewrite Hd. reflexivity.
Qed.

Lemma authMiddleware_allowed :
  Method r <> "OPTIONS" -> ~ denied s (Authorization r) ->
  authMiddleware next s w e rw r = next s w e (with_cors rw) r.
Proof.
  intros Hm Hd. unfold authMiddleware.
  destruct (String.eqb_spec (Method r) "OPTIONS"); [contradiction|].
  rewrite denied_test in Hd. apply not_true_is_false in Hd. rewrite Hd.
  reflexivity.
Qed.

Lemma denied_dec : denied s (Authorization r) \/ ~ denied s (Authorization r).
Proof.
  rewrite denied_test. destruct (_ || _); [left|right]; congruence.
Qed.

(** A POST that came back with 200 went through to the handler. *)
Lemma authMiddleware_post_accepted :
  Method r = "POST" ->
  Status (authMiddleware next s w e rw r).2 = StatusOK ->
  authMiddleware next s w e rw r = next s w e (with_cors rw) r.
Proof.
  intros Hm Hst.
  assert (Hno : Method r <> "OPTIONS") by (rewrite Hm; discriminate).
  destruct denied_dec as [Hd|Hd].
  - rewrite authMiddleware_denied in Hst by assumption. discriminate Hst.
  - apply authMiddleware_allowed; assumption.
Qed.

End Gate.

Lemma serve_route (s : Server) (w : World) (e : Env) (r : Request) :
  serve s w e r =
    match route (Path r) with
    | Some h => authMiddleware h s w e newWriter r
    | None => (s, w, http_Error newWriter "404 page not found" StatusNotFound)
    end.
Proof.
  unfold serve, route.
  repeat match goal with
         | |- context [String.eqb (Path r) ?p] => destruct (String.eqb (Path r) p)
         end; reflexivity.
Qed.

Lemma route_registered (path : string) :
  registered path -> exists h, route path = Some h.
Proof.
  intros [-> | [-> | [-> | ->]]]; simpl; eauto.
Qed.

(** ** The service, request by request *)

Section Service.

Variables (s : Server) (w : World) (e : Env) (r : Request).

Local Ltac cases :=
  repeat match goal with
         | |- context [String.eqb ?x ?y] => destruct (String.eqb_spec x y)
         | |- context [match Decode ?p with _ => _ end] =>
             destruct (Decode p)
         | |- context [?x >? ?y] => destruct (x >? y)
         | |- context [?x <? ?y] => destruct (x <? y)
         | |- context [match saveData ?s1 ?w1 ?f with _ => _ end] =>
             let L := fresh "L" in
             let err := fresh "err" in
             pose proof (saveData_logs s1 w1 f) as L;
             destruct (saveData s1 w1 f) as [? [err|]]; simpl in L
         | _ => progress simpl
         end.

(** A handler either took its success path or left the transaction log
    alone. *)
Lemma handleGet_audit (rw : ResponseWriter) :
  transLog (handleGet s w e rw r).1.2 = transLog w.
Proof. unfold handleGet. cases; reflexivity. Qed.

Lemma handleSet_audit (rw : ResponseWriter) :
  (Method r = "POST" /\ Status (handleSet s w e rw r).2 = Status rw) \/
  transLog (handleSet s w e rw r).1.2 = transLog w.
Proof. unfold handleSet. cases; auto; right; apply L. Qed.

Lemma handleSpend_audit (rw : ResponseWriter) :
  (Method r = "POST" /\ Status (handleSpend s w e rw r).2 = Status rw) \/
  transLog (handleSpend s w e rw r).1.2 = transLog w.
Proof. unfold handleSpend. cases; auto; right; apply L. Qed.

Lemma handleSetBudget_audit (rw : ResponseWriter) :
  (Method r = "POST" /\ Status (handleSetBudget s w e rw r).2 = Status rw) \/
  transLog (handleSetBudget s w e rw r).1.2 = transLog w.
Proof. unfold handleSetBudget. cases; auto; right; apply L. Qed.

(** Whatever is not an accepted POST leaves the transaction log alone. *)
Lemma serve_no_audit :
  ~ (Method r = "POST" /\ Status (serve s w e r).2 = StatusOK) ->
  transLog (serve s w e r).1.2 = transLog w.
Proof.
  intros Hno. rewrite serve_route in *.
  destruct (route (Path r)) as [h|] eqn:Hroute; [|reflexivity].
  destruct (String.eqb_spec (Method r) "OPTIONS") as [Hm|Hm].
  { rewrite authMiddleware_options by assumption. reflexivity. }
  destruct (denied_dec s r) as [Hd|Hd].
  { rewrite authMiddleware_denied by assumption. reflexivity. }
  rewrite authMiddleware_allowed in * by assumption.
  unfold route in Hroute.
  repeat match type of Hroute with
         | context [String.eqb ?x ?y] => destruct (String.eqb x y)
         end; inversion Hroute; subst h.
  - apply handleGet_audit.
  - destruct (handleSet_audit (with_cors newWriter)) as [H|H]; tauto.
  - destruct (handleSpend_audit (with_cors newWriter)) as [H|H]; tauto.
  - destruct (handleSetBudget_audit (with_cors newWriter)) as [H|H]; tauto.
Qed.

(** An accepted POST is one of the three mutations on its success path. *)
Lemma serve_post_accepted :
  Method r = "POST" -> Status (serve s w e r).2 = StatusOK ->
  exists a, Decode (Payload r) = Some a /\ disk e = NoFault /\
    ((Path r = "/set" /\ a <= maxBalance /\
      serve s w e r =
        (Set_state s a, committed w e r a (Set_state s a) "SET",
         Fprint (with_cors newWriter) (Text (pretty a)))) \/
     (Path r = "/spend" /\ -100000000 <= a <= 100000000 /\
      serve s w e r =
        (Spend_state s a, committed w e r a (Spend_state s a) "SPEND",
         Fprint (with_cors newWriter)
           (Text (pretty (Int32.sub (balance s) a))))) \/
     (Path r = "/set_budget" /\ 0 <= a <= maxBalance /\
      serve s w e r =
        (SetBudget_state s a,
         committed w e r a (SetBudget_state s a) "BUDGET_CHANGE",
         Fprint (Header_Set (with_cors newWriter)
                   "Content-Type" "application/json")
           (Json (Int32.add (balance s) (Int32.sub a (budget s))) a)))).
Proof.
  intros Hm Hst. unfold serve in *.
  destruct (String.eqb_spec (Path r) "/get") as [Hp|_].
  { rewrite authMiddleware_post_accepted in Hst by assumption.
    rewrite handleGet_post in Hst by assumption. discriminate Hst. }
  destruct (String.eqb_spec (Path r) "/set") as [Hp|_].
  { rewrite authMiddleware_post_accepted in * by assumption.
    destruct (handleSet_accepted _ _ _ _ _ Hst) as (a & _ & Ha & Hv & Hf).
    exists a. repeat split; try assumption. left. repeat split; try assumption.
    apply handleSet_success; assumption. }
  destruct (String.eqb_spec (Path r) "/spend") as [Hp|_].
  { rewrite authMiddleware_post_accepted in * by assumption.
    destruct (handleSpend_accepted _ _ _ _ _ Hst) as (a & _ & Ha & Hv & Hf).
    exists a. repeat split; try assumption. right; left.
    repeat split; try apply Hv; try assumption.
    apply handleSpend_success; assumption. }
  destruct (String.eqb_spec (Path r) "/set_budget") as [Hp|_].
  { rewrite authMiddleware_post_accepted in * by assumption.
    destruct (handleSetBudget_accepted _ _ _ _ _ Hst) as (a & _ & Ha & Hv & Hf).
    exists a. repeat split; try assumption. right; right.
    repeat split; try apply Hv; try assumption.
    apply handleSetBudget_success; assumption. }
  discriminate Hst.
Qed.

(** After an accepted POST the state file holds the encoding of the
    in-memory state. *)
Lemma serve_post_file :
  Method r = "POST" -> Status (serve s w e r).2 = StatusOK ->
  dbFile (serve s w e r).1.2 = Some (encode (serve s w e r).1.1).
Proof.
  intros Hm Hst.
  destruct (serve_post_accepted Hm Hst)
    as (a & _ & _ & [(_ & _ & ->)|[(_ & _ & ->)|(_ & _ & ->)]]);
    reflexivity.
Qed.

End Service.

(** ** The three mutations on the service's routes *)

Section Mutations.

Variables (op : mutation) (s : Server) (w : World) (e : Env) (r : Request)
          (a : Z).
Hypothesis Hpost : Method r = "POST".
Hypothesis Hpath : Path r = path_of op.
Hypothesis Hauth : ~ denied s (Authorization r).
Hypothesis Hbody : Decode (Payload r) = Some a.
Hypothesis Hvalid : valid op a.

Lemma serve_handler :
  serve s w e r = handler_of op s w e (with_cors newWriter) r.
Proof.
  assert (Hm : Method r <> "OPTIONS") by (rewrite Hpost; discriminate).
  unfold serve. rewrite Hpath.
  destruct op; simpl; apply authMiddleware_allowed; assumption.
Qed.

Lemma serve_mutation_saved :
  disk e = NoFault ->
  (serve s w e r).1.1 = apply_op op s a /\
  (serve s w e r).1.2 = committed w e r a (apply_op op s a) (action_of op) /\
  Status (serve s w e r).2 = StatusOK.
Proof.
  intros Hf. rewrite serve_handler. destruct op; simpl in *.
  - rewrite (handleSet_success _ _ _ _ _ a) by assumption. auto.
  - rewrite (handleSpend_success _ _ _ _ _ a) by assumption. auto.
  - rewrite (handleSetBudget_success _ _ _ _ _ a) by assumption. auto.
Qed.

Lemma serve_mutation_not_saved :
  disk e <> NoFault ->
  (serve s w e r).1.1 = apply_op op s a /\
  dbFile (serve s w e r).1.2 =
    dbFile (saveData (apply_op op s a) w (disk e)).1 /\
  transLog (serve s w e r).1.2 = transLog w /\
  Status (serve s w e r).2 = StatusInternalServerError.
Proof.
  intros Hf. rewrite serve_handler.
  pose proof (saveData_logs (apply_op op s a) w (disk e)) as (Ht & _ & _).
  destruct op; simpl in *.
  - destruct (handleSet_persist_failure s w e (with_cors newWriter) r a)
      as (err & _ & ->); auto.
  - destruct (handleSpend_persist_failure s w e (with_cors newWriter) r a)
      as (err & _ & ->); auto.
  - destruct (handleSetBudget_persist_failure s w e (with_cors newWriter) r a)
      as (err & _ & ->); auto.
Qed.

End Mutations.

(** Two wrapping operations in a row wrap once. *)
Lemma add_sub_of_Z (B b o : Z) :
  Int32.add B (Int32.sub b o) = Int32.of_Z (B + (b - o)).
Proof.
  unfold Int32.add, Int32.sub, Int32.of_Z, Int32.modulus. f_equal.
  replace (B + ((b - o + 2147483648) mod 4294967296 - 2147483648) + 2147483648)
    with (B + (b - o + 2147483648) mod 4294967296) by lia.
  rewrite Zplus_mod_idemp_r. f_equal. lia.
Qed.

(** Where the exact results fit in [int32], the mutations compute them. *)
Lemma Spend_state_exact (s : Server) (a : Z) :
  Int32.in_range (balance s - a) ->
  Spend_state s a = mkServer (balance s - a) (budget s) (users s).
Proof.
  intros H. unfold Spend_state, set_balance, Int32.sub.
  rewrite of_Z_id by assumption. reflexivity.
Qed.

Lemma SetBudget_state_exact (s : Server) (b : Z) :
  Int32.in_range (balance s + (b - budget s)) ->
  SetBudget_state s b = mkServer (balance s + (b - budget s)) b (users s).
Proof.
  intros H. unfold SetBudget_state, set_balance, set_budget. simpl.
  rewrite add_sub_of_Z, of_Z_id by assumption. reflexivity.
Qed.

(** * Properties of the ledger, claim by claim *)

(** ** Round trip of the state file *)

(** C4. Serialising an in-memory pair as [saveData] does (balance then
    budget, four little-endian bytes each) and reading the eight bytes back
    as [loadData] does gives the same pair; and in every run of the service
    from start-up, after each accepted Set, Spend or Set-budget request the
    state file holds eight bytes that load back to exactly the in-memory
    pair. *)
Theorem persisted_state_round_trip :
  (forall (s s' : Server) (w : World) (f : fault),
      Server_ok s ->
      dbFile w = Some (encode s) ->
      length (encode s) = 8%nat /\
      loadData s' w false f =
        (mkServer (balance s) (budget s) (users s'), w, None)) /\
  (forall (allow : gmap string bool) (w0 : World) (rf : bool) (f0 : fault)
          (rs : list (Env * Request)) (e : Env) (r : Request),
      let boot := startup allow w0 rf f0 in
      let before := run boot.1 boot.2 rs in
      let after := serve before.1.1 before.1.2 e r in
      Method r = "POST" ->
      Status after.2 = StatusOK ->
      dbFile after.1.2 = Some (encode after.1.1) /\
      forall (s' : Server) (f : fault),
        loadData s' after.1.2 false f =
          (mkServer (balance after.1.1) (budget after.1.1) (users s'),
           after.1.2, None)).
Proof.
  split.
  - intros s s' w f Hs Hfile. split; [apply encode_length|].
    apply loadData_encode; assumption.
  - intros allow w0 rf f0 rs e r boot before after Hm Hst.
    assert (Hfile : dbFile after.1.2 = Some (encode after.1.1))
      by (apply serve_post_file; assumption).
    split; [exact Hfile|]. intros s' f.
    apply loadData_encode; [|exact Hfile].
    apply serve_ok, run_ok, startup_ok.
Qed.

Lemma persisted_state_round_trip_witness :
  let s := mkServer (-7) 250 Scenario.allow in
  let w := set_dbFile Scenario.fresh (Some (encode s)) in
  let rs := [Scenario.post "/set_budget" 100; Scenario.post "/spend" 30] in
  let e := Scenario.clock NoFault in
  let r := Scenario.request "POST" "/set" "alice" (Number 42) in
  let before := run Scenario.boot.1 Scenario.boot.2 rs in
  let after := serve before.1.1 before.1.2 e r in
  (Server_ok s /\ dbFile w = Some (encode s) /\
   loadData (mkServer 0 0 ∅) w false NoFault = (mkServer (-7) 250 ∅, w, None)) /\
  (Method r = "POST" /\ Status after.2 = StatusOK /\
   dbFile after.1.2 = Some (encode after.1.1)).
Proof.
  intros s w rs e r before after.
  assert (Hs : Server_ok s).
  { unfold Server_ok, Int32.in_range, Int32.min_int, Int32.max_int. simpl. lia. }
  assert (Hst : Status after.2 = StatusOK) by (vm_compute; reflexivity).
  split.
  - split; [exact Hs|]. split; [reflexivity|].
    apply (proj1 persisted_state_round_trip s (mkServer 0 0 ∅) w NoFault Hs
             eq_refl).
  - split; [reflexivity|]. split; [exact Hst|].
    apply (proj2 persisted_state_round_trip Scenario.allow Scenario.fresh
             false NoFault rs e r eq_refl Hst).
Defined.

(** C5. Loading a state file of exactly four bytes sets the in-memory
    state to the balance those bytes spell in little-endian order and to a
    zero budget, and saves at once in the eight-byte layout: the file then
    is the same four bytes followed by four zero bytes, and loads back to
    the same balance with budget zero. *)
Theorem legacy_file_migrated
    (s : Server) (w : World) (b0 b1 b2 b3 : byte) (f : fault) :
  let legacy := set_dbFile w (Some [b0; b1; b2; b3]) in
  let V := Int32.of_Z (le32 b0 b1 b2 b3) in
  let migrated :=
    set_dbFile
      (log_Print legacy
         "Migrated database from 4 bytes to 8 bytes (added default Budget: 0)")
      (Some [b0; b1; b2; b3; x00; x00; x00; x00]) in
  LittleEndian.Uint32 [b0; b1; b2; b3] = Some (Int32.to_uint32 V) /\
  Int32.in_range V /\
  (loadData s legacy false f).1.1 = mkServer V 0 (users s) /\
  loadData s legacy false NoFault = (mkServer V 0 (users s), migrated, None) /\
  forall s' f',
    loadData s' migrated false f' = (mkServer V 0 (users s'), migrated, None).
Proof.
  intros legacy V migrated.
  assert (HV : Int32.in_range V) by apply of_Z_in_range.
  assert (Henc : forall u, encode (mkServer V 0 u) =
                           [b0; b1; b2; b3; x00; x00; x00; x00])
    by (intros u; apply encode_legacy).
  split; [|split; [|split; [|split]]].
  - unfold V. rewrite to_uint32_of_Z by apply le32_range. reflexivity.
  - exact HV.
  - unfold loadData. simpl.
    change (Z.lor _ _) with (le32 b0 b1 b2 b3). fold V.
    destruct (saveData _ _ f); reflexivity.
  - unfold loadData. simpl.
    change (Z.lor _ _) with (le32 b0 b1 b2 b3). fold V.
    unfold saveData, set_budget, set_balance. simpl.
    rewrite (Henc (users s)). reflexivity.
  - intros s' f'.
    apply (loadData_encode (mkServer V 0 (users s'))).
    + split; [exact HV|].
      unfold Int32.in_range, Int32.min_int, Int32.max_int; simpl; lia.
    + simpl. rewrite Henc. reflexivity.
Qed.

(** ** The access gate *)

(** C7. A request whose method is not OPTIONS and whose credential is empty
    or has no entry in the allowlist gets 401; exactly one line, carrying the
    credential as supplied and the remote address, is appended to the
    unauthorized log; the wrapped handler is not called (the outcome is the
    same whatever handler is wrapped); balance, budget, state file and
    transaction log stay as they were. This holds for the gate around any
    handler and so on each of the four routes. *)
Theorem unauthorized_request_rejected
    (next : HandlerFunc) (s : Server) (w : World) (e : Env)
    (rw : ResponseWriter) (r : Request) :
  Method r <> "OPTIONS" ->
  denied s (Authorization r) ->
  let out := authMiddleware next s w e rw r in
  Status out.2 = StatusUnauthorized /\
  unauthLog out.1.2 =
    unauthLog w ++
    [now_date e +:+ "," +:+ now_time e +:+ "," +:+ Authorization r +:+ "," +:+
     RemoteAddr r +:+ newline] /\
  out.1.1 = s /\
  dbFile out.1.2 = dbFile w /\
  transLog out.1.2 = transLog w /\
  (forall next' : HandlerFunc, authMiddleware next' s w e rw r = out) /\
  (registered (Path r) -> serve s w e r = authMiddleware next s w e newWriter r).
Proof.
  intros Hm Hd out. subst out.
  rewrite (authMiddleware_denied next) by assumption. simpl.
  repeat split.
  - intros next'. apply authMiddleware_denied; assumption.
  - intros Hreg. rewrite serve_route.
    destruct (route_registered _ Hreg) as [h ->].
    rewrite (authMiddleware_denied h), (authMiddleware_denied next)
      by assumption.
    reflexivity.
Qed.

Lemma unauthorized_request_rejected_witness :
  let r := Scenario.request "POST" "/spend" "mallory" (Number 5) in
  let s := Scenario.boot.1 in
  let w := Scenario.boot.2 in
  let e := Scenario.clock NoFault in
  Method r <> "OPTIONS" /\ denied s (Authorization r) /\
  Status (serve s w e r).2 = StatusUnauthorized /\
  unauthLog (serve s w e r).1.2 =
    ["2024-05-01,09:30:00,mallory,192.0.2.7:40000" +:+ newline] /\
  (serve s w e r).1.1 = s.
Proof.
  intros r s w e.
  assert (Hm : Method r <> "OPTIONS") by discriminate.
  assert (Hd : denied s (Authorization r)) by (right; vm_compute; discriminate).
  pose proof (unauthorized_request_rejected handleSpend s w e newWriter r Hm Hd)
    as (H1 & H2 & H3 & _ & _ & _ & H7).
  rewrite (H7 ltac:(right; right; left; reflexivity)).
  repeat split; assumption.
Defined.

(** C9. On each of the four routes an OPTIONS request is answered before
    any credential is looked at: status 200, no body, whatever the
    Authorization header holds; nothing is appended to the unauthorized log
    (the world and the server are untouched) and the wrapped handler is not
    called. *)
Theorem options_bypasses_authorization
    (next : HandlerFunc) (s : Server) (w : World) (e : Env) (r : Request) :
  Method r = "OPTIONS" ->
  let out := authMiddleware next s w e newWriter r in
  Status out.2 = StatusOK /\
  Body out.2 = NoBody /\
  out.1.2 = w /\
  unauthLog out.1.2 = unauthLog w /\
  out.1.1 = s /\
  (forall next' : HandlerFunc, authMiddleware next' s w e newWriter r = out) /\
  (registered (Path r) -> serve s w e r = out).
Proof.
  intros Hm out. subst out.
  rewrite (authMiddleware_options next) by assumption. simpl.
  repeat split.
  - intros next'. apply authMiddleware_options; assumption.
  - intros Hreg. rewrite serve_route.
    destruct (route_registered _ Hreg) as [h ->].
    apply authMiddleware_options; assumption.
Qed.

Lemma options_bypasses_authorization_witness :
  let r := Scenario.request "OPTIONS" "/set" EmptyString Unparsable in
  let s := Scenario.boot.1 in
  let w := Scenario.boot.2 in
  let e := Scenario.clock NoFault in
  Method r = "OPTIONS" /\
  Status (serve s w e r).2 = StatusOK /\
  Body (serve s w e r).2 = NoBody /\
  unauthLog (serve s w e r).1.2 = [].
Proof.
  intros r s w e.
  pose proof (options_bypasses_authorization handleSet s w e r eq_refl)
    as (H1 & H2 & _ & H4 & _ & _ & H7).
  rewrite (H7 ltac:(right; left; reflexivity)).
  repeat split; assumption.
Defined.

(** ** The transaction log *)

(** C10. The service appends to the transaction log exactly when it
    accepts a POST, and the one line it appends carries, as its amount
    field, the value decoded from the request: the requested balance for
    SET, the requested spend for SPEND, the requested new budget for
    BUDGET_CHANGE (neither the difference applied to the balance nor the
    resulting balance). *)
Theorem audit_amount_is_requested_value
    (s : Server) (w : World) (e : Env) (r : Request) :
  let out := serve s w e r in
  if decide (Method r = "POST" /\ Status out.2 = StatusOK) then
    exists (op : mutation) (a : Z),
      Path r = path_of op /\
      Decode (Payload r) = Some a /\
      transLog out.1.2 =
        transLog w ++
        [now_date e +:+ "," +:+ now_time e +:+ "," +:+ Authorization r +:+ ","
         +:+ action_of op +:+ "," +:+ pretty a +:+ newline]
  else transLog out.1.2 = transLog w.
Proof.
  intros out. subst out.
  destruct (decide _) as [[Hm Hst]|Hno].
  - destruct (serve_post_accepted s w e r Hm Hst)
      as (a & Ha & _ & [(Hp & _ & ->)|[(Hp & _ & ->)|(Hp & _ & ->)]]).
    + exists OpSet, a. auto.
    + exists OpSpend, a. auto.
    + exists OpSetBudget, a. auto.
  - apply serve_no_audit, Hno.
Qed.

(** The log after raising the budget from 100 to 150 and spending 30. *)
Example audit_lines :
  let out := run Scenario.boot.1 Scenario.boot.2
               [Scenario.post "/set_budget" 100;
                Scenario.post "/set_budget" 150;
                Scenario.post "/spend" 30] in
  transLog out.1.2 =
    ["2024-05-01,09:30:00,alice,BUDGET_CHANGE,100" +:+ newline;
     "2024-05-01,09:30:00,alice,BUDGET_CHANGE,150" +:+ newline;
     "2024-05-01,09:30:00,alice,SPEND,30" +:+ newline] /\
  (balance out.1.1, budget out.1.1) = (120, 150).
Proof. vm_compute. split; reflexivity. Qed.

(** ** Arithmetic at the edge of [int32] *)

(** C1. The balance is not kept at or below [maxBalance] and the
    arithmetic does wrap. From start-up without a state file:
    - Set 2000000000 then Spend -100000000 are both accepted and leave the
      balance at 2100000000, above the cap;
    - Set 2000000000 then Set-budget 2000000000 are both accepted and leave
      the balance at -294967296, the wrapped value of 4000000000;
    - twenty-two accepted Spends of 100000000 leave the balance at
      2094967296, the wrapped value of -2200000000. *)
Theorem balance_cap_not_enforced :
  (let out := run Scenario.boot.1 Scenario.boot.2
                [Scenario.post "/set" 2000000000;
                 Scenario.post "/spend" (-100000000)] in
   Status <$> out.2 = [StatusOK; StatusOK] /\
   balance out.1.1 = 2100000000 /\
   maxBalance < balance out.1.1) /\
  (let out := run Scenario.boot.1 Scenario.boot.2
                [Scenario.post "/set" 2000000000;
                 Scenario.post "/set_budget" 2000000000] in
   Status <$> out.2 = [StatusOK; StatusOK] /\
   balance out.1.1 = -294967296 /\
   Int32.of_Z 4000000000 = -294967296) /\
  (let out := run Scenario.boot.1 Scenario.boot.2
                (replicate 22 (Scenario.post "/spend" 100000000)) in
   Status <$> out.2 = replicate 22 StatusOK /\
   balance out.1.1 = 2094967296 /\
   maxBalance < balance out.1.1).
Proof. vm_compute. repeat split; reflexivity. Qed.

(** C3. Set-budget at a balance where the adjustment leaves [int32]: with
    balance 2000000000 and budget 100, the accepted request for budget
    2000000000 yields balance -294967396, not 2000000000 + (2000000000 -
    100); and at balance 2147483647, raising the budget from 100 to 150 is
    accepted and yields -2147483599, not the balance plus 50. *)
Theorem set_budget_wraps :
  (let before := run Scenario.boot.1 Scenario.boot.2
                   [Scenario.post "/set_budget" 100;
                    Scenario.post "/set" 2000000000] in
   let after := serve before.1.1 before.1.2 (Scenario.clock NoFault)
                  (Scenario.request "POST" "/set_budget" "alice"
                     (Number 2000000000)) in
   (balance before.1.1, budget before.1.1) = (2000000000, 100) /\
   Status after.2 = StatusOK /\
   Body after.2 = Json (-294967396) 2000000000 /\
   (balance after.1.1, budget after.1.1) = (-294967396, 2000000000) /\
   balance after.1.1 <> balance before.1.1 + (2000000000 - budget before.1.1)) /\
  (let before := run Scenario.boot.1 Scenario.boot.2
                   [Scenario.post "/set_budget" 100;
                    Scenario.post "/set" 2000000000;
                    Scenario.post "/spend" (-100000000);
                    Scenario.post "/spend" (-47483647)] in
   let after := serve before.1.1 before.1.2 (Scenario.clock NoFault)
                  (Scenario.request "POST" "/set_budget" "alice" (Number 150)) in
   (balance before.1.1, budget before.1.1) = (2147483647, 100) /\
   Status after.2 = StatusOK /\
   (balance after.1.1, budget after.1.1) = (-2147483599, 150) /\
   balance after.1.1 <> balance before.1.1 + 50).
Proof. vm_compute. repeat split; try reflexivity; intros H; discriminate H. Qed.

(** C6. Spend at a balance where the difference leaves [int32]: after an
    accepted Set to -2147483648, Spend 1 is accepted, answers
    ["2147483647"] and leaves the balance at 2147483647 instead of one
    below the previous balance. *)
Theorem spend_wraps :
  let before := run Scenario.boot.1 Scenario.boot.2
                  [Scenario.post "/set" (-2147483648)] in
  let after := serve before.1.1 before.1.2 (Scenario.clock NoFault)
                 (Scenario.request "POST" "/spend" "alice" (Number 1)) in
  Status <$> before.2 = [StatusOK] /\
  balance before.1.1 = -2147483648 /\
  Status after.2 = StatusOK /\
  Body after.2 = Text "2147483647" /\
  balance after.1.1 = 2147483647 /\
  balance after.1.1 <> balance before.1.1 - 1.
Proof. vm_compute. repeat split; try reflexivity; intros H; discriminate H. Qed.

(** With balance 100 saved on disk and [os.OpenFile] failing, each of the
    three operations answers 500 and yet keeps its new value in memory: the
    file still loads to balance 100 while the server holds another one. *)
Lemma persist_failure_not_rolled_back :
  ~ rolls_back_on_persist_failure OpSet /\
  ~ rolls_back_on_persist_failure OpSpend /\
  ~ rolls_back_on_persist_failure OpSetBudget /\
  (let s := mkServer 100 0 Scenario.allow in
   let w := set_dbFile Scenario.fresh (Some (encode s)) in
   let out := serve s w (Scenario.clock OpenFails)
                (Scenario.request "POST" "/set" "alice" (Number 5)) in
   Status out.2 = StatusInternalServerError /\
   transLog out.1.2 = [] /\
   balance out.1.1 = 5 /\
   balance (loadData out.1.1 out.1.2 false NoFault).1.1 = 100).
Proof.
  pose (s := mkServer 100 0 Scenario.allow).
  pose (w := set_dbFile Scenario.fresh (Some (encode s))).
  pose (e := Scenario.clock OpenFails).
  repeat split.
  - intros H.
    specialize (H s w e (Scenario.request "POST" "/set" "alice" (Number 5))
                  eq_refl eq_refl eq_refl).
    apply (f_equal balance) in H. vm_compute in H. discriminate H.
  - intros H.
    specialize (H s w e (Scenario.request "POST" "/spend" "alice" (Number 5))
                  eq_refl eq_refl eq_refl).
    apply (f_equal balance) in H. vm_compute in H. discriminate H.
  - intros H.
    specialize (H s w e (Scenario.request "POST" "/set_budget" "alice" (Number 5))
                  eq_refl eq_refl eq_refl).
    apply (f_equal balance) in H. vm_compute in H. discriminate H.
Qed.

(** C2 (as the code has it). When a mutating request has passed the method
    check, the gate, decoding and the range check, and [saveData] then
    fails, the response is 500 and no line is added to the transaction log;
    the server keeps the value the operation assigned (there is no
    roll-back), and the state file is whatever the failed [saveData] left:
    untouched if the open failed. *)
Theorem persist_failure_outcome
    (op : mutation) (s : Server) (w : World) (e : Env) (r : Request) (a : Z) :
  Method r = "POST" ->
  Path r = path_of op ->
  ~ denied s (Authorization r) ->
  Decode (Payload r) = Some a ->
  valid op a ->
  disk e <> NoFault ->
  let out := serve s w e r in
  Status out.2 = StatusInternalServerError /\
  transLog out.1.2 = transLog w /\
  out.1.1 = apply_op op s a /\
  dbFile out.1.2 = dbFile (saveData (apply_op op s a) w (disk e)).1 /\
  (disk e = OpenFails -> dbFile out.1.2 = dbFile w).
Proof.
  intros Hm Hp Hauth Ha Hv Hf out. subst out.
  destruct (serve_mutation_not_saved op s w e r a Hm Hp Hauth Ha Hv Hf)
    as (H1 & H2 & H3 & H4).
  repeat split; try assumption.
  intros Hopen. rewrite H2, Hopen. reflexivity.
Qed.

Lemma persist_failure_outcome_witness :
  let s := mkServer 100 0 Scenario.allow in
  let w := set_dbFile Scenario.fresh (Some (encode s)) in
  let e := Scenario.clock OpenFails in
  let r := Scenario.request "POST" "/spend" "alice" (Number 30) in
  (Method r = "POST" /\ Path r = path_of OpSpend /\
   ~ denied s (Authorization r) /\ Decode (Payload r) = Some 30 /\
   valid OpSpend 30 /\ disk e <> NoFault) /\
  Status (serve s w e r).2 = StatusInternalServerError /\
  transLog (serve s w e r).1.2 = [] /\
  (serve s w e r).1.1 = mkServer 70 0 Scenario.allow /\
  dbFile (serve s w e r).1.2 = Some (encode s).
Proof.
  intros s w e r.
  assert (Hauth : ~ denied s (Authorization r)).
  { intros [H|H]; [discriminate H|]. apply H. vm_compute. reflexivity. }
  assert (Hv : valid OpSpend 30) by (simpl; lia).
  assert (Hf : disk e <> NoFault) by discriminate.
  split.
  { split; [reflexivity|]. split; [reflexivity|]. split; [exact Hauth|].
    split; [reflexivity|]. split; [exact Hv|exact Hf]. }
  destruct (persist_failure_outcome OpSpend s w e r 30
              eq_refl eq_refl Hauth eq_refl Hv Hf) as (H1 & H2 & H3 & _ & H5).
  split; [exact H1|]. split; [exact H2|]. split; [exact H3|].
  exact (H5 eq_refl).
Defined.

(** After start-up on a three-byte file, an authorised Set 5 is accepted:
    the balance becomes 5 and the file is overwritten. *)
Lemma mutations_served_after_corrupt_load :
  ~ refuses_mutations_after_corrupt_load.
Proof.
  intros H.
  specialize (H Scenario.allow
                (set_dbFile Scenario.fresh (Some [x01; x02; x03]))
                [x01; x02; x03] (Scenario.clock NoFault)
                (Scenario.request "POST" "/set" "alice" (Number 5))
                eq_refl ltac:(discriminate) ltac:(discriminate)).
  destruct H as [H _]. vm_compute in H. discriminate H.
Qed.

(** C8 (as the code has it). If the state file exists with a length other
    than 4 or 8 bytes, [loadData] fails with the invalid-data-length error
    and leaves the fresh server at balance 0 and budget 0 and the file as it
    is; [main] only logs a warning and goes on to serve every route from
    those zeros, mutations included: an authorised, valid Set, Spend or
    Set-budget whose save succeeds is accepted and overwrites the file with
    the eight bytes of the new state. *)
Theorem corrupt_state_file_tolerated
    (allow : gmap string bool) (w : World) (data : list byte) (f : fault) :
  dbFile w = Some data ->
  length data <> 4%nat ->
  length data <> 8%nat ->
  let srv := mkServer 0 0 allow in
  let warned :=
    log_Print w ("Warning: Failed to load data (starting at 0): " +:+
                 "invalid data length: " +:+ pretty (Z.of_nat (length data))) in
  loadData srv w false f = (srv, w, Some (ErrInvalidDataLength (length data))) /\
  startup allow w false f = (srv, warned) /\
  forall (op : mutation) (e : Env) (r : Request) (a : Z),
    Method r = "POST" ->
    Path r = path_of op ->
    ~ denied srv (Authorization r) ->
    Decode (Payload r) = Some a ->
    valid op a ->
    disk e = NoFault ->
    let out := serve srv warned e r in
    Status out.2 = StatusOK /\
    out.1.1 = apply_op op srv a /\
    dbFile out.1.2 = Some (encode (apply_op op srv a)).
Proof.
  intros Hfile H4 H8 srv warned.
  assert (Hload : loadData srv w false f =
                  (srv, w, Some (ErrInvalidDataLength (length data)))).
  { unfold loadData. rewrite Hfile.
    apply Nat.eqb_neq in H4, H8. rewrite H4, H8. reflexivity. }
  split; [exact Hload|]. split.
  - unfold startup. fold srv. rewrite Hload. reflexivity.
  - intros op e r a Hm Hp Hauth Ha Hv Hf out. subst out.
    destruct (serve_mutation_saved op srv warned e r a Hm Hp Hauth Ha Hv Hf)
      as (H1 & H2 & H3).
    repeat split; try assumption. rewrite H2. reflexivity.
Qed.

Lemma corrupt_state_file_tolerated_witness :
  let w := set_dbFile Scenario.fresh (Some [x01; x02; x03]) in
  let boot := startup Scenario.allow w false NoFault in
  let e := Scenario.clock NoFault in
  let r := Scenario.request "POST" "/set" "alice" (Number 5) in
  (dbFile w = Some [x01; x02; x03] /\
   length [x01; x02; x03] <> 4%nat /\ length [x01; x02; x03] <> 8%nat) /\
  boot.1 = mkServer 0 0 Scenario.allow /\
  stdLog boot.2 =
    ["Warning: Failed to load data (starting at 0): invalid data length: 3"] /\
  Status (serve boot.1 boot.2 e r).2 = StatusOK /\
  (serve boot.1 boot.2 e r).1.1 = mkServer 5 0 Scenario.allow.
Proof.
  intros w boot e r.
  assert (H4 : length [x01; x02; x03] <> 4%nat) by discriminate.
  assert (H8 : length [x01; x02; x03] <> 8%nat) by discriminate.
  split; [split; [reflexivity|split; [exact H4|exact H8]]|].
  destruct (corrupt_state_file_tolerated Scenario.allow w [x01; x02; x03]
              NoFault eq_refl H4 H8) as (_ & Hboot & Hserve).
  assert (Hauth : ~ denied (mkServer 0 0 Scenario.allow) (Authorization r)).
  { intros [H|H]; [discriminate H|]. apply H. vm_compute. reflexivity. }
  destruct (Hserve OpSet e r 5 eq_refl eq_refl Hauth eq_refl
              ltac:(simpl; unfold maxBalance; lia) eq_refl) as (H1 & H2 & _).
  unfold boot. rewrite Hboot. simpl.
  split; [reflexivity|]. split; [reflexivity|]. split; [exact H1|exact H2].
Defined.

(** * The rest of the service: every path of a request *)

Section HandlerStages.

Variables (op : mutation) (s : Server) (w : World) (e : Env)
          (rw : ResponseWriter) (r : Request).

Lemma valid_dec (a : Z) : valid op a \/ ~ valid op a.
Proof. destruct op; simpl; unfold maxBalance; lia. Qed.

Lemma handler_wrong_method :
  Method r <> "POST" ->
  handler_of op s w e rw r =
    (s, w, http_Error rw "Method not allowed" StatusMethodNotAllowed).
Proof.
  intros Hm. destruct op; simpl;
    [unfold handleSet|unfold handleSpend|unfold handleSetBudget];
    destruct (String.eqb_spec (Method r) "POST"); try contradiction;
    reflexivity.
Qed.

Lemma handler_bad_body :
  Method r = "POST" -> Decode (Payload r) = None ->
  handler_of op s w e rw r =
    (s, w, http_Error rw "Invalid body" StatusBadRequest).
Proof.
  intros Hm Hd. destruct op; simpl;
    [unfold handleSet|unfold handleSpend|unfold handleSetBudget];
    rewrite Hm, Hd; reflexivity.
Qed.

Lemma handler_invalid (a : Z) :
  Method r = "POST" -> Decode (Payload r) = Some a -> ~ valid op a ->
  handler_of op s w e rw r =
    (s, w, http_Error rw (reject_msg op) StatusBadRequest).
Proof.
  intros Hm Hd Hv. destruct op; simpl in *;
    [unfold handleSet|unfold handleSpend|unfold handleSetBudget];
    rewrite Hm, Hd; simpl.
  - destruct (Z.gtb_spec a maxBalance); [reflexivity|lia].
  - destruct (Z.gtb_spec a 100000000); [reflexivity|].
    destruct (Z.ltb_spec a (-100000000)); [reflexivity|lia].
  - destruct (Z.ltb_spec a 0); [reflexivity|].
    destruct (Z.gtb_spec a maxBalance); [reflexivity|lia].
Qed.

Lemma handler_saved (a : Z) :
  Method r = "POST" -> Decode (Payload r) = Some a -> valid op a ->
  disk e = NoFault ->
  handler_of op s w e rw r =
    (apply_op op s a, committed w e r a (apply_op op s a) (action_of op),
     response_of op s a rw).
Proof.
  intros Hm Hd Hv Hf. destruct op; simpl in *.
  - apply handleSet_success; assumption.
  - apply handleSpend_success; assumption.
  - apply handleSetBudget_success; assumption.
Qed.

Lemma handler_failed (a : Z) :
  Method r = "POST" -> Decode (Payload r) = Some a -> valid op a ->
  disk e <> NoFault ->
  exists err,
    (saveData (apply_op op s a) w (disk e)).2 = Some err /\
    handler_of op s w e rw r =
      (apply_op op s a, (aborted w e rw (apply_op op s a) err).1,
       (aborted w e rw (apply_op op s a) err).2).
Proof.
  intros Hm Hd Hv Hf. destruct op; simpl in *.
  - apply handleSet_persist_failure; assumption.
  - apply handleSpend_persist_failure; assumption.
  - apply handleSetBudget_persist_failure; assumption.
Qed.

End HandlerStages.

Lemma route_Some (path : string) (h : HandlerFunc) :
  route path = Some h ->
  (path = "/get" /\ h = handleGet) \/
  (exists op, path = path_of op /\ h = handler_of op).
Proof.
  unfold route.
  destruct (String.eqb_spec path "/get");
    [intros [= <-]; auto|].
  destruct (String.eqb_spec path "/set");
    [intros [= <-]; right; exists OpSet; auto|].
  destruct (String.eqb_spec path "/spend");
    [intros [= <-]; right; exists OpSpend; auto|].
  destruct (String.eqb_spec path "/set_budget");
    [intros [= <-]; right; exists OpSetBudget; auto|].
  discriminate.
Qed.

Lemma path_of_registered (op : mutation) : registered (path_of op).
Proof. destruct op; unfold registered; simpl; auto. Qed.

Lemma method_of_path_of (op : mutation) : method_of (path_of op) = "POST".
Proof. destruct op; reflexivity. Qed.

(** Every request takes exactly one of the listed paths through the gate
    and its handler. *)
Lemma serve_outcome (s : Server) (w : World) (e : Env) (r : Request) :
  outcome s w e r (serve s w e r).
Proof.
  rewrite serve_route.
  destruct (route (Path r)) as [h|] eqn:Hroute; [|constructor; assumption].
  assert (Hreg : registered (Path r)).
  { destruct (route_Some _ _ Hroute) as [[-> _]|(op & -> & _)];
      [left; reflexivity|apply path_of_registered]. }
  destruct (String.eqb_spec (Method r) "OPTIONS") as [Hopt|Hopt].
  { rewrite authMiddleware_options by assumption.
    apply out_options; assumption. }
  destruct (denied_dec s r) as [Hd|Hd].
  { rewrite authMiddleware_denied by assumption.
    apply out_denied; assumption. }
  rewrite authMiddleware_allowed by assumption.
  destruct (route_Some _ _ Hroute) as [[Hp ->]|(op & Hp & ->)].
  - unfold handleGet.
    destruct (String.eqb_spec (Method r) "GET") as [Hm|Hm]; simpl.
    + apply out_get; assumption.
    + apply out_method; try assumption. rewrite Hp. exact Hm.
  - destruct (String.eqb_spec (Method r) "POST") as [Hm|Hm].
    2:{ rewrite handler_wrong_method by assumption.
        apply out_method; try assumption.
        rewrite Hp, method_of_path_of. exact Hm. }
    destruct (Decode (Payload r)) as [a|] eqn:Ha.
    2:{ rewrite handler_bad_body by assumption.
        eapply out_bad_body; eassumption. }
    destruct (valid_dec op a) as [Hv|Hv].
    2:{ rewrite (handler_invalid op _ _ _ _ _ a) by assumption.
        eapply out_invalid; eassumption. }
    destruct (disk e) eqn:Hf.
    1:{ rewrite (handler_saved op _ _ _ _ _ a) by assumption.
        apply out_saved; assumption. }
    all: destruct (handler_failed op s w e (with_cors newWriter) r a Hm Ha Hv)
           as (err & Herr & ->); [rewrite Hf; discriminate|];
         apply out_failed; assumption.
Qed.

(** ** Frame facts read off the outcomes *)

Lemma response_of_Status (op : mutation) (s : Server) (a : Z)
    (rw : ResponseWriter) :
  Status (response_of op s a rw) = Status rw.
Proof. destruct op; reflexivity. Qed.

Lemma apply_op_users (op : mutation) (s : Server) (a : Z) :
  users (apply_op op s a) = users s.
Proof. destruct op; reflexivity. Qed.

Lemma apply_op_budget (op : mutation) (s : Server) (a : Z) :
  budget (apply_op op s a) = match op with OpSetBudget => a | _ => budget s end.
Proof. destruct op; reflexivity. Qed.

Lemma aborted_logs (w : World) (e : Env) (rw : ResponseWriter)
    (s' : Server) (err : error) :
  transLog (aborted w e rw s' err).1 = transLog w /\
  unauthLog (aborted w e rw s' err).1 = unauthLog w /\
  Status (aborted w e rw s' err).2 = StatusInternalServerError.
Proof.
  unfold aborted. simpl.
  destruct (saveData_logs s' w (disk e)) as (H1 & H2 & _). auto.
Qed.

(** Runs the case analysis of [serve_outcome] on a goal about
    [serve s w e r]. *)
Ltac by_outcome_raw s w e r :=
  generalize (serve_outcome s w e r);
  generalize (serve s w e r);
  let o := fresh "o" in
  let Ho := fresh "Ho" in
  intros o Ho; destruct Ho.

Ltac by_outcome s w e r := by_outcome_raw s w e r; simpl in *.

(** X1. A request that is answered with anything but 200 or 500 has
    changed nothing in the server, in the state file, in the transaction log
    or in the standard log; unless the answer is 401, it has changed nothing
    at all. *)
Theorem rejected_request_changes_nothing
    (s : Server) (w : World) (e : Env) (r : Request) :
  Status (serve s w e r).2 <> StatusOK ->
  Status (serve s w e r).2 <> StatusInternalServerError ->
  (serve s w e r).1.1 = s /\
  dbFile (serve s w e r).1.2 = dbFile w /\
  transLog (serve s w e r).1.2 = transLog w /\
  stdLog (serve s w e r).1.2 = stdLog w /\
  (Status (serve s w e r).2 <> StatusUnauthorized -> (serve s w e r).1.2 = w).
Proof.
  by_outcome s w e r; intros H200 H500; auto 10.
  - repeat split; auto. intros Hu. contradiction.
  - rewrite response_of_Status in H200. contradiction.
  - contradiction.
Qed.

Lemma rejected_request_changes_nothing_witness :
  let s := Scenario.boot.1 in
  let w := Scenario.boot.2 in
  let e := Scenario.clock SyncFails in
  let r := Scenario.request "POST" "/spend" "alice" (Number 100000001) in
  (Status (serve s w e r).2 <> StatusOK /\
   Status (serve s w e r).2 <> StatusInternalServerError) /\
  Status (serve s w e r).2 = StatusBadRequest /\
  (serve s w e r).1.1 = s /\
  (serve s w e r).1.2 = w.
Proof.
  intros s w e r.
  assert (H1 : Status (serve s w e r).2 <> StatusOK)
    by (vm_compute; discriminate).
  assert (H2 : Status (serve s w e r).2 <> StatusInternalServerError)
    by (vm_compute; discriminate).
  destruct (rejected_request_changes_nothing s w e r H1 H2)
    as (Hs & _ & _ & _ & Hw).
  split; [split; assumption|]. split; [reflexivity|]. split; [exact Hs|].
  apply Hw. vm_compute. discriminate.
Defined.

(** X2. A request to /get, whatever its method and credential, leaves the
    server, the state file, the transaction log and the standard log as
    they were; an authorised GET is answered 200 with the in-memory balance
    and budget as JSON, and changes nothing at all. *)
Theorem get_is_read_only (s : Server) (w : World) (e : Env) (r : Request) :
  Path r = "/get" ->
  (serve s w e r).1.1 = s /\
  dbFile (serve s w e r).1.2 = dbFile w /\
  transLog (serve s w e r).1.2 = transLog w /\
  stdLog (serve s w e r).1.2 = stdLog w /\
  (Method r = "GET" -> ~ denied s (Authorization r) ->
   (serve s w e r).1.2 = w /\
   Status (serve s w e r).2 = StatusOK /\
   Body (serve s w e r).2 = Json (balance s) (budget s) /\
   Header (serve s w e r).2 !! "Content-Type" = Some "application/json").
Proof.
  intros Hp. unfold serve. rewrite Hp. simpl.
  destruct (String.eqb_spec (Method r) "OPTIONS") as [Hopt|Hopt].
  { rewrite authMiddleware_options by assumption. simpl.
    repeat split; congruence. }
  destruct (denied_dec s r) as [Hd|Hd].
  { rewrite authMiddleware_denied by assumption. simpl.
    repeat split; contradiction. }
  rewrite authMiddleware_allowed by assumption. unfold handleGet.
  destruct (String.eqb_spec (Method r) "GET") as [Hm|Hm]; simpl.
  - repeat split.
  - repeat split; contradiction.
Qed.

Lemma get_is_read_only_witness :
  let s := mkServer (-250) 1000 Scenario.allow in
  let w := Scenario.fresh in
  let e := Scenario.clock OpenFails in
  let r := Scenario.request "GET" "/get" "alice" Unparsable in
  Path r = "/get" /\
  (serve s w e r).1 = (s, w) /\
  Status (serve s w e r).2 = StatusOK /\
  Body (serve s w e r).2 = Json (-250) 1000.
Proof.
  intros s w e r.
  assert (Hauth : ~ denied s (Authorization r)).
  { intros [H|H]; [discriminate H|]. apply H. vm_compute. reflexivity. }
  destruct (get_is_read_only s w e r eq_refl) as (Hs & _ & _ & _ & Hget).
  destruct (Hget eq_refl Hauth) as (Hw & Hst & Hb & _).
  split; [reflexivity|]. split; [|split; assumption].
  rewrite (surjective_pairing (serve s w e r).1), Hs, Hw. reflexivity.
Defined.

(** An authorised POST on a mutating route reaches its handler. *)
Lemma serve_to_handler (op : mutation) (s : Server) (w : World) (e : Env)
    (r : Request) :
  Method r = "POST" -> Path r = path_of op ->
  ~ denied s (Authorization r) ->
  serve s w e r = handler_of op s w e (with_cors newWriter) r.
Proof.
  intros Hm Hp Hauth.
  assert (Hopt : Method r <> "OPTIONS") by (rewrite Hm; discriminate).
  unfold serve. rewrite Hp.
  destruct op; simpl; apply authMiddleware_allowed; assumption.
Qed.

Lemma Decode_Number_iff (z a : Z) :
  Decode (Number z) = Some a <-> a = z /\ Int32.in_range z.
Proof.
  simpl. destruct (Int32.in_rangeb z) eqn:E.
  - apply in_rangeb_spec in E. split; [intros [= <-]; auto|intros [-> _]; auto].
  - split; [discriminate|]. intros [_ H]. apply in_rangeb_spec in H. congruence.
Qed.

Lemma accepts_valid (op : mutation) (z : Z) :
  accepts op z <-> Int32.in_range z /\ valid op z.
Proof.
  destruct op; unfold accepts, valid, Int32.in_range, Int32.min_int,
    Int32.max_int, maxBalance; lia.
Qed.

(** X3. For an authorised POST whose body carries the integer z and whose
    save succeeds, /set answers 200 exactly when -2147483648 <= z <=
    2000000000 (the cap itself is accepted, no negative value is refused),
    /spend exactly when -100000000 <= z <= 100000000 and /set_budget exactly
    when 0 <= z <= 2000000000; then the in-memory state is the one the
    operation assigns. Any other integer, also one that does not fit
    [int32], is answered 400 and changes nothing. *)
Theorem acceptance_ranges
    (op : mutation) (s : Server) (w : World) (e : Env) (r : Request) (z : Z) :
  Method r = "POST" ->
  Path r = path_of op ->
  ~ denied s (Authorization r) ->
  Payload r = Number z ->
  disk e = NoFault ->
  (accepts op z ->
   Status (serve s w e r).2 = StatusOK /\
   (serve s w e r).1.1 = apply_op op s z) /\
  (~ accepts op z ->
   Status (serve s w e r).2 = StatusBadRequest /\
   (serve s w e r).1 = (s, w)).
Proof.
  intros Hm Hp Hauth Hbody Hf.
  rewrite (serve_to_handler op s w e r Hm Hp Hauth).
  split; intros Hacc.
  - apply accepts_valid in Hacc as [Hr Hv].
    assert (Hd : Decode (Payload r) = Some z)
      by (rewrite Hbody; apply Decode_Number; exact Hr).
    rewrite (handler_saved op s w e _ r z Hm Hd Hv Hf). simpl.
    rewrite response_of_Status. auto.
  - destruct (Decode (Payload r)) as [a|] eqn:Hd.
    + rewrite Hbody in Hd. apply Decode_Number_iff in Hd as [-> Hr].
      assert (Hv : ~ valid op z)
        by (intros Hv; apply Hacc, accepts_valid; auto).
      assert (Hd : Decode (Payload r) = Some z)
        by (rewrite Hbody; apply Decode_Number; exact Hr).
      rewrite (handler_invalid op s w e _ r z Hm Hd Hv). auto.
    + rewrite (handler_bad_body op s w e _ r Hm Hd). auto.
Qed.

Lemma acceptance_ranges_witness :
  let s := Scenario.boot.1 in
  let w := Scenario.boot.2 in
  let e := Scenario.clock NoFault in
  let at_cap := Scenario.request "POST" "/set" "alice" (Number 2000000000) in
  let above := Scenario.request "POST" "/set" "alice" (Number 2000000001) in
  (Method at_cap = "POST" /\ Path at_cap = path_of OpSet /\
   ~ denied s (Authorization at_cap) /\ disk e = NoFault /\
   accepts OpSet 2000000000 /\ ~ accepts OpSet 2000000001) /\
  Status (serve s w e at_cap).2 = StatusOK /\
  balance (serve s w e at_cap).1.1 = 2000000000 /\
  Status (serve s w e above).2 = StatusBadRequest /\
  (serve s w e above).1 = (s, w).
Proof.
  intros s w e at_cap above.
  assert (Hauth : ~ denied s "alice").
  { intros [H|H]; [discriminate H|]. apply H. vm_compute. reflexivity. }
  assert (Hyes : accepts OpSet 2000000000)
    by (unfold accepts, Int32.min_int, maxBalance; lia).
  assert (Hno : ~ accepts OpSet 2000000001)
    by (unfold accepts, Int32.min_int, maxBalance; lia).
  destruct (acceptance_ranges OpSet s w e at_cap 2000000000
              eq_refl eq_refl Hauth eq_refl eq_refl) as [Hacc _].
  destruct (acceptance_ranges OpSet s w e above 2000000001
              eq_refl eq_refl Hauth eq_refl eq_refl) as [_ Hrej].
  destruct (Hacc Hyes) as [H1 H2]. destruct (Hrej Hno) as [H3 H4].
  split.
  { split; [reflexivity|]. split; [reflexivity|]. split; [exact Hauth|].
    split; [reflexivity|]. split; assumption. }
  split; [exact H1|]. split; [rewrite H2; reflexivity|]. split; assumption.
Defined.

Lemma serve_users (s : Server) (w : World) (e : Env) (r : Request) :
  users (serve s w e r).1.1 = users s.
Proof. by_outcome s w e r; auto using apply_op_users. Qed.

Lemma run_cons (s : Server) (w : World) (e : Env) (r : Request)
    (rs : list (Env * Request)) :
  run s w ((e, r) :: rs) =
    (let first := serve s w e r in
     let rest := run first.1.1 first.1.2 rs in
     (rest.1.1, rest.1.2, first.2 :: rest.2)).
Proof.
  simpl. destruct (serve s w e r) as [[s1 w1] rw1]. simpl.
  destruct (run s1 w1 rs) as [[s2 w2] out]. reflexivity.
Qed.

(** X4. No sequence of requests changes the allowlist: the credentials the
    gate accepts after any run are those it accepted before. *)
Theorem allowlist_never_changes (rs : list (Env * Request)) :
  forall (s : Server) (w : World),
    users (run s w rs).1.1 = users s /\
    forall user, denied (run s w rs).1.1 user <-> denied s user.
Proof.
  induction rs as [|[e r] rs IH]; intros s w.
  - simpl. split; [reflexivity|]. intros user. reflexivity.
  - rewrite run_cons. simpl.
    destruct (IH (serve s w e r).1.1 (serve s w e r).1.2) as [Hu _].
    assert (H : users (run (serve s w e r).1.1 (serve s w e r).1.2 rs).1.1 =
                users s) by (rewrite Hu; apply serve_users).
    split; [exact H|]. intros user. unfold denied. rewrite H. reflexivity.
Qed.

Lemma serve_budget_bounds (s : Server) (w : World) (e : Env) (r : Request) :
  0 <= budget s <= maxBalance -> 0 <= budget (serve s w e r).1.1 <= maxBalance.
Proof.
  by_outcome s w e r; intros Hb; try exact Hb;
    rewrite apply_op_budget; destruct op; simpl in *; assumption.
Qed.

(** X5. If the budget lies between 0 and [maxBalance], it still does after
    any sequence of requests, accepted or not, with or without disk
    faults. *)
Theorem budget_stays_within_bounds (rs : list (Env * Request)) :
  forall (s : Server) (w : World),
    0 <= budget s <= maxBalance ->
    0 <= budget (run s w rs).1.1 <= maxBalance.
Proof.
  induction rs as [|[e r] rs IH]; intros s w Hb.
  - exact Hb.
  - rewrite run_cons. simpl. apply IH, serve_budget_bounds, Hb.
Qed.

Lemma budget_stays_within_bounds_witness :
  let rs := [Scenario.post "/set_budget" 500;
             (Scenario.clock SyncFails,
              Scenario.request "POST" "/set_budget" "alice" (Number 700));
             Scenario.post "/set_budget" (-1);
             Scenario.post "/spend" 900] in
  0 <= budget Scenario.boot.1 <= maxBalance /\
  budget (run Scenario.boot.1 Scenario.boot.2 rs).1.1 = 700 /\
  0 <= budget (run Scenario.boot.1 Scenario.boot.2 rs).1.1 <= maxBalance.
Proof.
  intros rs.
  assert (H0 : 0 <= budget Scenario.boot.1 <= maxBalance)
    by (vm_compute; split; discriminate).
  split; [exact H0|]. split; [vm_compute; reflexivity|].
  apply (budget_stays_within_bounds rs Scenario.boot.1 Scenario.boot.2 H0).
Defined.

(** X6. The service appends to the unauthorized log exactly when it answers
    401: then the path is a registered one, the credential is denied, the
    one new line carries the credential and the remote address, and the
    server is unchanged; with any other answer the unauthorized log is as it
    was. *)
Theorem unauthorized_log_iff_401
    (s : Server) (w : World) (e : Env) (r : Request) :
  if decide (Status (serve s w e r).2 = StatusUnauthorized) then
    registered (Path r) /\ Method r <> "OPTIONS" /\
    denied s (Authorization r) /\
    (serve s w e r).1.1 = s /\
    unauthLog (serve s w e r).1.2 =
      unauthLog w ++
      [now_date e +:+ "," +:+ now_time e +:+ "," +:+ Authorization r +:+ ","
       +:+ RemoteAddr r +:+ newline]
  else unauthLog (serve s w e r).1.2 = unauthLog w.
Proof.
  by_outcome_raw s w e r; destruct (decide _) as [Hst|Hst]; simpl in Hst;
    try discriminate Hst; try reflexivity; try contradiction.
  - simpl. auto 10.
  - rewrite response_of_Status in Hst. discriminate Hst.
  - destruct (aborted_logs w e (with_cors newWriter) (apply_op op s a) err)
      as (_ & Hu & _). exact Hu.
Qed.

(** What one request adds to the two audit logs. *)
Lemma serve_logs (s : Server) (w : World) (e : Env) (r : Request) :
  exists lt lu,
    transLog (serve s w e r).1.2 = transLog w ++ lt /\
    unauthLog (serve s w e r).1.2 = unauthLog w ++ lu /\
    length lt =
      (if decide (Method r = "POST" /\ Status (serve s w e r).2 = StatusOK)
       then 1 else 0)%nat /\
    length lu =
      (if decide (Status (serve s w e r).2 = StatusUnauthorized)
       then 1 else 0)%nat.
Proof.
  by_outcome_raw s w e r.
  all: try (exists [], []; rewrite !app_nil_r;
            split; [reflexivity|]; split; [reflexivity|];
            split; destruct (decide _) as [Hx|Hx]; try reflexivity;
            simpl in Hx; try discriminate Hx; destruct Hx as [Hx1 Hx2];
            try discriminate Hx2; congruence).
  - eexists [], [_]. rewrite app_nil_r.
    split; [reflexivity|]. split; [reflexivity|].
    split; destruct (decide _) as [Hx|Hx]; try reflexivity; simpl in Hx.
    + destruct Hx as [_ Hx]. discriminate Hx.
    + contradiction.
  - eexists [_], []. rewrite app_nil_r.
    split; [reflexivity|]. split; [reflexivity|].
    split; destruct (decide _) as [Hx|Hx]; try reflexivity; simpl in Hx;
      rewrite response_of_Status in Hx.
    + exfalso. apply Hx. auto.
    + discriminate Hx.
  - destruct (aborted_logs w e (with_cors newWriter) (apply_op op s a) err)
      as (Ht & Hu & Hst).
    exists [], []. rewrite !app_nil_r.
    split; [exact Ht|]. split; [exact Hu|].
    split; destruct (decide _) as [Hx|Hx]; try reflexivity; simpl in Hx.
    + destruct Hx as [_ Hx]. discriminate Hx.
    + discriminate Hx.
Qed.

(** X7. Both audit logs only grow, and over any sequence of requests the
    transaction log gains exactly one line per POST answered 200 and the
    unauthorized log exactly one line per request answered 401; every
    request gets one response. *)
Theorem log_lengths_over_run (rs : list (Env * Request)) :
  forall (s : Server) (w : World),
    length (run s w rs).2 = length rs /\
    exists lt lu,
      transLog (run s w rs).1.2 = transLog w ++ lt /\
      unauthLog (run s w rs).1.2 = unauthLog w ++ lu /\
      length lt = count_accepted rs (run s w rs).2 /\
      length lu = count_status StatusUnauthorized (run s w rs).2.
Proof.
  induction rs as [|[e r] rs IH]; intros s w.
  - simpl. split; [reflexivity|]. exists [], [].
    rewrite !app_nil_r. auto.
  - rewrite run_cons. cbv zeta.
    destruct (serve_logs s w e r) as (lt1 & lu1 & Ht1 & Hu1 & Hlt1 & Hlu1).
    destruct (IH (serve s w e r).1.1 (serve s w e r).1.2)
      as (Hlen & lt2 & lu2 & Ht2 & Hu2 & Hlt2 & Hlu2).
    simpl. split; [f_equal; exact Hlen|].
    exists (lt1 ++ lt2), (lu1 ++ lu2).
    rewrite Ht2, Hu2, Ht1, Hu1, <- !app_assoc, !length_app, Hlt1, Hlu1, Hlt2, Hlu2.
    repeat split.
    unfold count_status. rewrite filter_cons.
    destruct (decide (Status (serve s w e r).2 = StatusUnauthorized));
      reflexivity.
Qed.

(** ** How accepted operations add up *)

Lemma of_Z_sub_l (x y : Z) : Int32.of_Z (Int32.of_Z x - y) = Int32.of_Z (x - y).
Proof.
  unfold Int32.of_Z, Int32.modulus. f_equal.
  replace ((x + 2147483648) mod 4294967296 - 2147483648 - y + 2147483648)
    with ((x + 2147483648) mod 4294967296 + - y) by lia.
  rewrite Zplus_mod_idemp_l. f_equal. lia.
Qed.

Lemma of_Z_add_l (x y : Z) : Int32.of_Z (Int32.of_Z x + y) = Int32.of_Z (x + y).
Proof.
  replace (Int32.of_Z x + y) with (Int32.of_Z x - - y) by lia.
  rewrite of_Z_sub_l. f_equal. lia.
Qed.

Lemma run_step (s : Server) (w : World) (q : Env * Request)
    (rs : list (Env * Request)) :
  run s w (q :: rs) =
    (let first := serve s w q.1 q.2 in
     let rest := run first.1.1 first.1.2 rs in
     (rest.1.1, rest.1.2, first.2 :: rest.2)).
Proof. destruct q as [e r]. apply run_cons. Qed.

(** What an accepted request built by [mutation_request] does. *)
Lemma serve_mutation_request (op : mutation) (user addr : string)
    (ez : Env * Z) (s : Server) (w : World) :
  ~ denied s user -> accepts op ez.2 ->
  let q := mutation_request op user addr ez in
  (serve s w q.1 q.2).1.1 = apply_op op s ez.2 /\
  Status (serve s w q.1 q.2).2 = StatusOK.
Proof.
  intros Hauth Hacc q.
  apply accepts_valid in Hacc as [Hr Hv].
  destruct (serve_mutation_saved op s w q.1 q.2 ez.2
              eq_refl eq_refl Hauth (Decode_Number _ Hr) Hv eq_refl)
    as (H1 & _ & H3).
  auto.
Qed.

(** X8. Accepted spends add up: after any sequence of authorised Spend
    requests within the cap, served without disk fault, every answer is 200,
    the budget is unchanged and the balance is the initial balance minus the
    sum of the amounts, wrapped once to [int32]; so it is exactly that
    difference whenever the difference fits. *)
Theorem spends_compose (user addr : string) (eas : list (Env * Z)) :
  forall (s : Server) (w : World),
    ~ denied s user ->
    Int32.in_range (balance s) ->
    Forall (fun ea => accepts OpSpend ea.2) eas ->
    let res := run s w (map (mutation_request OpSpend user addr) eas) in
    Forall (fun rw => Status rw = StatusOK) res.2 /\
    budget res.1.1 = budget s /\
    balance res.1.1 = Int32.of_Z (balance s - total (map snd eas)) /\
    (Int32.in_range (balance s - total (map snd eas)) ->
     balance res.1.1 = balance s - total (map snd eas)).
Proof.
  induction eas as [|ea eas IH]; intros s w Hauth Hr Hall res; subst res.
  - simpl. rewrite Z.sub_0_r, of_Z_id by assumption. auto.
  - inversion Hall as [|? ? Ha Hrest]; subst.
    destruct (serve_mutation_request OpSpend user addr ea s w Hauth Ha)
      as [Hs1 Hst1].
    simpl map. rewrite run_step. cbv zeta. cbn [fst snd].
    set (q := mutation_request OpSpend user addr ea) in *.
    set (s1 := (serve s w q.1 q.2).1.1) in *.
    set (w1 := (serve s w q.1 q.2).1.2).
    assert (Hauth1 : ~ denied s1 user)
      by (unfold denied; rewrite Hs1; exact Hauth).
    assert (Hr1 : Int32.in_range (balance s1))
      by (rewrite Hs1; apply of_Z_in_range).
    destruct (IH s1 w1 Hauth1 Hr1 Hrest) as (Hok & Hbud & Hbal & _).
    assert (Hfinal : balance
                       (run s1 w1 (map (mutation_request OpSpend user addr) eas)).1.1 =
                     Int32.of_Z (balance s - total (map snd (ea :: eas)))).
    { rewrite Hbal, Hs1. simpl. unfold Int32.sub.
      rewrite of_Z_sub_l. f_equal. lia. }
    split; [constructor; assumption|].
    split; [rewrite Hbud, Hs1; reflexivity|].
    split; [exact Hfinal|].
    intros Hfit. rewrite Hfinal. apply of_Z_id, Hfit.
Qed.

Lemma spends_compose_witness :
  let s := mkServer 1000 0 Scenario.allow in
  let eas := replicate 25 (Scenario.clock SyncFails, 10) in
  let res := run s Scenario.fresh
               (map (mutation_request OpSpend "alice" "192.0.2.7:40000") eas) in
  (~ denied s "alice" /\ Int32.in_range (balance s) /\
   Forall (fun ea => accepts OpSpend ea.2) eas) /\
  balance res.1.1 = 750.
Proof.
  intros s eas res.
  assert (Hauth : ~ denied s "alice").
  { intros [H|H]; [discriminate H|]. apply H. vm_compute. reflexivity. }
  assert (Hr : Int32.in_range (balance s)).
  { unfold Int32.in_range, Int32.min_int, Int32.max_int. simpl. lia. }
  assert (Hall : Forall (fun ea => accepts OpSpend ea.2) eas).
  { apply Forall_replicate. simpl. lia. }
  split; [split; [exact Hauth|split; [exact Hr|exact Hall]]|].
  destruct (spends_compose "alice" "192.0.2.7:40000" eas s Scenario.fresh
              Hauth Hr Hall) as (_ & _ & _ & Hexact).
  apply Hexact.
  unfold Int32.in_range, Int32.min_int, Int32.max_int. vm_compute.
  split; discriminate.
Defined.

Lemma last_cons_default (b : Z) (l : list Z) (d : Z) :
  default d (last (b :: l)) = default b (last l).
Proof.
  destruct l as [|c l]; [reflexivity|].
  change (last (b :: c :: l)) with (last (c :: l)).
  destruct (last (c :: l)) eqn:E; [reflexivity|].
  apply last_None in E. discriminate E.
Qed.

(** X9. Accepted budget changes telescope: after any sequence of
    authorised Set-budget requests with budgets between 0 and [maxBalance],
    served without disk fault, the budget is the last one requested and the
    balance is the initial balance plus the difference between the last and
    the initial budget, wrapped once to [int32]; the budgets in between
    leave no trace. *)
Theorem budget_changes_telescope (user addr : string) (ebs : list (Env * Z)) :
  forall (s : Server) (w : World),
    ~ denied s user ->
    Int32.in_range (balance s) ->
    Forall (fun eb => accepts OpSetBudget eb.2) ebs ->
    let res := run s w (map (mutation_request OpSetBudget user addr) ebs) in
    let final := default (budget s) (last (map snd ebs)) in
    Forall (fun rw => Status rw = StatusOK) res.2 /\
    budget res.1.1 = final /\
    balance res.1.1 = Int32.of_Z (balance s + (final - budget s)).
Proof.
  induction ebs as [|eb ebs IH]; intros s w Hauth Hr Hall res final;
    subst res final.
  - simpl. rewrite Z.sub_diag, Z.add_0_r, of_Z_id by assumption. auto.
  - inversion Hall as [|? ? Hb Hrest]; subst.
    destruct (serve_mutation_request OpSetBudget user addr eb s w Hauth Hb)
      as [Hs1 Hst1].
    simpl map. rewrite run_step. cbv zeta. cbn [fst snd].
    set (q := mutation_request OpSetBudget user addr eb) in *.
    set (s1 := (serve s w q.1 q.2).1.1) in *.
    set (w1 := (serve s w q.1 q.2).1.2).
    assert (Hauth1 : ~ denied s1 user)
      by (unfold denied; rewrite Hs1; exact Hauth).
    assert (Hr1 : Int32.in_range (balance s1))
      by (rewrite Hs1; apply of_Z_in_range).
    destruct (IH s1 w1 Hauth1 Hr1 Hrest) as (Hok & Hbud & Hbal).
    rewrite last_cons_default.
    assert (Hb1 : budget s1 = eb.2) by (rewrite Hs1; reflexivity).
    assert (HB1 : balance s1 = Int32.of_Z (balance s + (eb.2 - budget s)))
      by (rewrite Hs1; simpl; apply add_sub_of_Z).
    rewrite Hb1 in Hbud, Hbal.
    split; [constructor; assumption|].
    split; [exact Hbud|].
    rewrite Hbal, HB1, of_Z_add_l. f_equal. lia.
Qed.

Lemma budget_changes_telescope_witness :
  let s := mkServer 40 100 Scenario.allow in
  let ebs := [(Scenario.clock NoFault, 2000000000);
              (Scenario.clock NoFault, 0);
              (Scenario.clock NoFault, 150)] in
  let res := run s Scenario.fresh
               (map (mutation_request OpSetBudget "alice" "192.0.2.7:40000") ebs) in
  (~ denied s "alice" /\ Int32.in_range (balance s) /\
   Forall (fun eb => accepts OpSetBudget eb.2) ebs) /\
  budget res.1.1 = 150 /\
  balance res.1.1 = 90.
Proof.
  intros s ebs res.
  assert (Hauth : ~ denied s "alice").
  { intros [H|H]; [discriminate H|]. apply H. vm_compute. reflexivity. }
  assert (Hr : Int32.in_range (balance s)).
  { unfold Int32.in_range, Int32.min_int, Int32.max_int. simpl. lia. }
  assert (Hall : Forall (fun eb => accepts OpSetBudget eb.2) ebs).
  { repeat constructor; simpl; unfold maxBalance; lia. }
  split; [split; [exact Hauth|split; [exact Hr|exact Hall]]|].
  destruct (budget_changes_telescope "alice" "192.0.2.7:40000" ebs s
              Scenario.fresh Hauth Hr Hall) as (_ & Hbud & Hbal).
  split; [exact Hbud|exact Hbal].
Defined.

(** X10. A Spend that was answered 500 has been applied all the same: the
    balance is already reduced in memory, and when the same request is sent
    again and saved, the amount is deducted a second time, while the
    transaction log holds a single line for the two deductions. *)
Theorem failed_spend_stays_applied
    (s : Server) (w : World) (e1 e2 : Env) (r : Request) (a : Z) :
  Method r = "POST" ->
  Path r = "/spend" ->
  ~ denied s (Authorization r) ->
  Decode (Payload r) = Some a ->
  -100000000 <= a <= 100000000 ->
  disk e1 <> NoFault ->
  disk e2 = NoFault ->
  let first := serve s w e1 r in
  let second := serve first.1.1 first.1.2 e2 r in
  Status first.2 = StatusInternalServerError /\
  balance first.1.1 = Int32.sub (balance s) a /\
  Status second.2 = StatusOK /\
  balance second.1.1 = Int32.of_Z (balance s - 2 * a) /\
  transLog second.1.2 =
    transLog w ++
    [now_date e2 +:+ "," +:+ now_time e2 +:+ "," +:+ Authorization r +:+ ","
     +:+ "SPEND" +:+ "," +:+ pretty a +:+ newline] /\
  dbFile second.1.2 = Some (encode second.1.1).
Proof.
  intros Hm Hp Hauth Ha Hv Hf1 Hf2 first second.
  destruct (serve_mutation_not_saved OpSpend s w e1 r a Hm Hp Hauth Ha Hv Hf1)
    as (Hs1 & _ & Ht1 & Hst1).
  fold first in Hs1, Ht1, Hst1.
  assert (Hauth1 : ~ denied first.1.1 (Authorization r))
    by (unfold denied; rewrite Hs1; exact Hauth).
  destruct (serve_mutation_saved OpSpend first.1.1 first.1.2 e2 r a
              Hm Hp Hauth1 Ha Hv Hf2) as (Hs2 & Hw2 & Hst2).
  fold second in Hs2, Hw2, Hst2.
  split; [exact Hst1|]. split; [rewrite Hs1; reflexivity|].
  split; [exact Hst2|]. split.
  { rewrite Hs2, Hs1. simpl. unfold Int32.sub. rewrite of_Z_sub_l.
    f_equal. lia. }
  split.
  { rewrite Hw2. unfold committed. simpl. rewrite Ht1. reflexivity. }
  rewrite Hw2, <- Hs2. reflexivity.
Qed.

Lemma failed_spend_stays_applied_witness :
  let s := mkServer 1000 0 Scenario.allow in
  let w := set_dbFile Scenario.fresh (Some (encode s)) in
  let e1 := Scenario.clock OpenFails in
  let e2 := Scenario.clock NoFault in
  let r := Scenario.request "POST" "/spend" "alice" (Number 10) in
  let second := serve (serve s w e1 r).1.1 (serve s w e1 r).1.2 e2 r in
  (Method r = "POST" /\ Path r = "/spend" /\ ~ denied s (Authorization r) /\
   Decode (Payload r) = Some 10 /\ -100000000 <= 10 <= 100000000 /\
   disk e1 <> NoFault /\ disk e2 = NoFault) /\
  Status (serve s w e1 r).2 = StatusInternalServerError /\
  balance second.1.1 = 980 /\
  transLog second.1.2 = ["2024-05-01,09:30:00,alice,SPEND,10" +:+ newline].
Proof.
  intros s w e1 e2 r second.
  assert (Hauth : ~ denied s (Authorization r)).
  { intros [H|H]; [discriminate H|]. apply H. vm_compute. reflexivity. }
  assert (Hv : -100000000 <= 10 <= 100000000) by lia.
  assert (Hf : disk e1 <> NoFault) by discriminate.
  destruct (failed_spend_stays_applied s w e1 e2 r 10
              eq_refl eq_refl Hauth eq_refl Hv Hf eq_refl)
    as (H1 & _ & _ & H4 & H5 & _).
  split.
  { split; [reflexivity|]. split; [reflexivity|]. split; [exact Hauth|].
    split; [reflexivity|]. split; [exact Hv|]. split; [exact Hf|reflexivity]. }
  split; [exact H1|]. split; [exact H4|exact H5].
Defined.

(** ** More on the state file *)

Lemma encode_le32 (a0 a1 a2 a3 c0 c1 c2 c3 : byte) (u : gmap string bool) :
  encode (mkServer (Int32.of_Z (le32 a0 a1 a2 a3))
                   (Int32.of_Z (le32 c0 c1 c2 c3)) u) =
    [a0; a1; a2; a3; c0; c1; c2; c3].
Proof.
  rewrite encode_bytes. cbv zeta. simpl balance. simpl budget.
  rewrite !to_uint32_of_Z by apply le32_range.
  destruct (put_le32 a0 a1 a2 a3) as (-> & -> & -> & ->).
  destruct (put_le32 c0 c1 c2 c3) as (-> & -> & -> & ->).
  reflexivity.
Qed.

(** X11. Any eight bytes are a state file: [loadData] reads them without
    error and without touching the world, whatever values they spell (it
    checks neither the cap nor the sign of the budget), and [saveData] on
    the loaded state writes the very same eight bytes back. *)
Theorem state_file_bytes_round_trip
    (s : Server) (w : World) (f : fault) (b0 b1 b2 b3 b4 b5 b6 b7 : byte) :
  let data := [b0; b1; b2; b3; b4; b5; b6; b7] in
  let w8 := set_dbFile w (Some data) in
  loadData s w8 false f =
    (mkServer (Int32.of_Z (le32 b0 b1 b2 b3)) (Int32.of_Z (le32 b4 b5 b6 b7))
       (users s), w8, None) /\
  encode (loadData s w8 false f).1.1 = data /\
  (saveData (loadData s w8 false f).1.1 w8 NoFault).1 = w8.
Proof.
  intros data w8.
  assert (Hload : loadData s w8 false f =
    (mkServer (Int32.of_Z (le32 b0 b1 b2 b3)) (Int32.of_Z (le32 b4 b5 b6 b7))
       (users s), w8, None)) by reflexivity.
  rewrite Hload. simpl fst.
  split; [reflexivity|]. split; [apply encode_le32|].
  unfold saveData. simpl fst. rewrite encode_le32. reflexivity.
Qed.

(** A state file that loads above the cap and with a negative budget. *)
Example loadData_unchecked :
  let w := set_dbFile Scenario.fresh
             (Some [xff; xff; xff; x7f; xff; xff; xff; xff]) in
  (loadData (mkServer 0 0 ∅) w false NoFault).1.1 = mkServer 2147483647 (-1) ∅.
Proof. vm_compute. reflexivity. Qed.

(** X12. [loadData] returns no error exactly when the file could be read
    and is missing, or holds eight bytes, or holds four bytes and the
    migrating save succeeded; it never fails on a slice bound. A file of any
    other length, the empty file included, gives the invalid-data-length
    error and leaves server and world as they were. *)
Theorem loadData_error_cases
    (s : Server) (w : World) (rf : bool) (f : fault) :
  ((loadData s w rf f).2 = None <->
   rf = false /\
   (dbFile w = None \/
    exists data, dbFile w = Some data /\
      (length data = 8%nat \/ (length data = 4%nat /\ f = NoFault)))) /\
  (loadData s w rf f).2 <> Some PanicIndexOutOfRange /\
  (forall data,
      rf = false -> dbFile w = Some data ->
      length data <> 4%nat -> length data <> 8%nat ->
      loadData s w rf f = (s, w, Some (ErrInvalidDataLength (length data)))).
Proof.
  split; [|split; [apply loadData_no_panic|]].
  - unfold loadData. destruct rf.
    { simpl. split; [discriminate|]. intros [H _]. discriminate H. }
    destruct (dbFile w) as [data|] eqn:Hfile.
    2:{ simpl. split; auto. }
    destruct data as [|b0 [|b1 [|b2 [|b3 [|b4 [|b5 [|b6 [|b7 [|b8 tl]]]]]]]]];
      simpl.
    all: try (split;
              [discriminate
              |intros (_ & [H|(d & [= <-] & [H|[H _]])]); discriminate H]).
    + destruct f; simpl.
      all: try (split;
                [discriminate
                |intros (_ & [H|(d & [= <-] & [H|[_ H]])]); discriminate H]).
      split; [|reflexivity]. intros _. split; [reflexivity|]. right.
      eexists. split; [reflexivity|]. right. auto.
    + split; [|reflexivity]. intros _. split; [reflexivity|]. right.
      eexists. split; [reflexivity|]. left. reflexivity.
  - intros data -> Hfile H4 H8. unfold loadData. rewrite Hfile.
    apply Nat.eqb_neq in H4, H8. rewrite H4, H8. reflexivity.
Qed.

Lemma loadData_error_cases_witness :
  let s := mkServer 7 9 Scenario.allow in
  let w := set_dbFile Scenario.fresh (Some []) in
  (dbFile w = Some [] /\ length (@nil byte) <> 4%nat /\
   length (@nil byte) <> 8%nat) /\
  loadData s w false NoFault = (s, w, Some (ErrInvalidDataLength 0)).
Proof.
  intros s w.
  assert (H4 : length (@nil byte) <> 4%nat) by discriminate.
  assert (H8 : length (@nil byte) <> 8%nat) by discriminate.
  split; [split; [reflexivity|split; assumption]|].
  destruct (loadData_error_cases s w false NoFault) as (_ & _ & H).
  apply (H [] eq_refl eq_refl H4 H8).
Defined.

Lemma take_encode_4 (s : Server) :
  take 4 (encode s) =
    let ub := Int32.to_uint32 (balance s) in
    [byte_of ub; byte_of (Z.shiftr ub 8); byte_of (Z.shiftr ub 16);
     byte_of (Z.shiftr ub 24)].
Proof. reflexivity. Qed.

(** Loading four bytes that spell an [int32] in little-endian order. *)
Lemma Uint32_put (v : Z) :
  LittleEndian.Uint32
    [byte_of v; byte_of (Z.shiftr v 8); byte_of (Z.shiftr v 16);
     byte_of (Z.shiftr v 24)] = Some (v mod Int32.modulus).
Proof.
  unfold LittleEndian.Uint32. simpl.
  change (Z.lor _ _) with
    (le32 (byte_of v) (byte_of (Z.shiftr v 8)) (byte_of (Z.shiftr v 16))
          (byte_of (Z.shiftr v 24))).
  rewrite le32_put. reflexivity.
Qed.

(** [loadData] on a four-byte file spelling [v]. *)
Lemma loadData_four (s : Server) (w : World) (v : Z) (f : fault) :
  dbFile w =
    Some [byte_of v; byte_of (Z.shiftr v 8); byte_of (Z.shiftr v 16);
          byte_of (Z.shiftr v 24)] ->
  loadData s w false f =
    (let s' := mkServer (Int32.of_Z (v mod Int32.modulus)) 0 (users s) in
     let w1 := log_Print w
       "Migrated database from 4 bytes to 8 bytes (added default Budget: 0)" in
     (s', (saveData s' w1 f).1, (saveData s' w1 f).2)).
Proof.
  intros Hfile. unfold loadData. rewrite Hfile.
  simpl length. simpl Nat.eqb. cbv iota. rewrite Uint32_put.
  cbv zeta. unfold set_budget, set_balance. simpl.
  destruct (saveData _ _ f). reflexivity.
Qed.

(** X13. A write that fails part-way decides the next start. If
    [saveData] is cut off after n < 8 bytes, the response is 500 and the
    file holds the first n bytes of the new state. On the next start-up a
    file cut after exactly four bytes is taken for a legacy file: the
    service starts with the new balance and budget 0, the budget being
    lost; cut at any other length, it starts from balance 0 and budget 0
    with a warning. *)
Theorem torn_write_restart
    (op : mutation) (s : Server) (w : World) (e : Env) (r : Request) (a : Z)
    (n : nat) (allow : gmap string bool) :
  Server_ok s ->
  Method r = "POST" ->
  Path r = path_of op ->
  ~ denied s (Authorization r) ->
  Decode (Payload r) = Some a ->
  valid op a ->
  disk e = WriteFails n ->
  (n < 8)%nat ->
  let out := serve s w e r in
  let boot := startup allow out.1.2 false NoFault in
  Status out.2 = StatusInternalServerError /\
  dbFile out.1.2 = Some (take n (encode out.1.1)) /\
  (n = 4%nat -> boot.1 = mkServer (balance out.1.1) 0 allow) /\
  (n <> 4%nat ->
   boot.1 = mkServer 0 0 allow /\
   last (stdLog boot.2) =
     Some ("Warning: Failed to load data (starting at 0): " +:+
           "invalid data length: " +:+ pretty (Z.of_nat n))).
Proof.
  intros Hok Hm Hp Hauth Ha Hv Hf Hn out boot.
  assert (Hf' : disk e <> NoFault) by (rewrite Hf; discriminate).
  destruct (serve_mutation_not_saved op s w e r a Hm Hp Hauth Ha Hv Hf')
    as (Hs1 & Hfile & _ & Hst).
  fold out in Hs1, Hfile, Hst.
  assert (Hok1 : Server_ok out.1.1) by apply serve_ok, Hok.
  rewrite Hf in Hfile. simpl in Hfile. rewrite <- Hs1 in Hfile.
  split; [exact Hst|]. split; [exact Hfile|].
  assert (Hlen : length (take n (encode out.1.1)) = n).
  { rewrite length_take, encode_length. lia. }
  split.
  - intros ->. unfold boot, startup, loadData. rewrite Hfile, Hlen.
    simpl Nat.eqb. cbv iota. rewrite take_encode_4. cbv zeta.
    rewrite Uint32_put, to_uint32_idemp.
    rewrite of_Z_to_uint32 by apply Hok1. reflexivity.
  - intros Hn4. unfold boot, startup, loadData. rewrite Hfile, Hlen.
    assert (H4 : (n =? 4)%nat = false) by (apply Nat.eqb_neq; exact Hn4).
    assert (H8 : (n =? 8)%nat = false) by (apply Nat.eqb_neq; lia).
    rewrite H4, H8. simpl. split; [reflexivity|].
    rewrite last_snoc. reflexivity.
Qed.

Lemma torn_write_restart_witness :
  let s := mkServer 300 500 Scenario.allow in
  let w := set_dbFile Scenario.fresh (Some (encode s)) in
  let e := Scenario.clock (WriteFails 4) in
  let r := Scenario.request "POST" "/spend" "alice" (Number 100) in
  let out := serve s w e r in
  (Server_ok s /\ Method r = "POST" /\ Path r = path_of OpSpend /\
   ~ denied s (Authorization r) /\ Decode (Payload r) = Some 100 /\
   valid OpSpend 100 /\ disk e = WriteFails 4 /\ (4 < 8)%nat) /\
  Status out.2 = StatusInternalServerError /\
  (startup Scenario.allow out.1.2 false NoFault).1 =
    mkServer 200 0 Scenario.allow.
Proof.
  intros s w e r out.
  assert (Hok : Server_ok s).
  { unfold Server_ok, Int32.in_range, Int32.min_int, Int32.max_int. simpl. lia. }
  assert (Hauth : ~ denied s (Authorization r)).
  { intros [H|H]; [discriminate H|]. apply H. vm_compute. reflexivity. }
  assert (Hv : valid OpSpend 100) by (simpl; lia).
  assert (Hn : (4 < 8)%nat) by lia.
  destruct (torn_write_restart OpSpend s w e r 100 4 Scenario.allow
              Hok eq_refl eq_refl Hauth eq_refl Hv eq_refl Hn)
    as (H1 & _ & H3 & _).
  split.
  { split; [exact Hok|]. split; [reflexivity|]. split; [reflexivity|].
    split; [exact Hauth|]. split; [reflexivity|]. split; [exact Hv|].
    split; [reflexivity|exact Hn]. }
  split; [exact H1|]. exact (H3 eq_refl).
Defined.

(** ** The earlier release and its state file *)

Lemma Legacy_encode_bytes (ls : Legacy.Server) :
  Legacy.encode ls =
    let ub := Int32.to_uint32 (Legacy.balance ls) in
    [byte_of ub; byte_of (Z.shiftr ub 8); byte_of (Z.shiftr ub 16);
     byte_of (Z.shiftr ub 24)].
Proof. reflexivity. Qed.

(** X14. In the earlier release, [loadBalance] after a successful
    [saveBalance] gives the saved balance back; so does it when only the
    final sync failed, and when the file could not be opened the old file
    is still there. *)
Theorem legacy_round_trip
    (ls ls' : Legacy.Server) (w : World) :
  Int32.in_range (Legacy.balance ls) ->
  Legacy.loadBalance ls' (Legacy.saveBalance ls w NoFault).1 false =
    (Legacy.mkServer (Legacy.balance ls) (Legacy.users ls'), None) /\
  Legacy.loadBalance ls' (Legacy.saveBalance ls w SyncFails).1 false =
    (Legacy.mkServer (Legacy.balance ls) (Legacy.users ls'), None) /\
  (Legacy.saveBalance ls w OpenFails).1 = w.
Proof.
  intros Hr.
  assert (H : forall w',
             dbFile w' = Some (Legacy.encode ls) ->
             Legacy.loadBalance ls' w' false =
               (Legacy.mkServer (Legacy.balance ls) (Legacy.users ls'), None)).
  { intros w' Hfile. unfold Legacy.loadBalance. rewrite Hfile.
    rewrite Legacy_encode_bytes. cbv zeta. simpl length. simpl Nat.eqb.
    cbv iota. simpl negb. cbv iota.
    rewrite Uint32_put, to_uint32_idemp, of_Z_to_uint32 by assumption.
    reflexivity. }
  split; [apply H; reflexivity|]. split; [apply H; reflexivity|reflexivity].
Qed.

Lemma legacy_round_trip_witness :
  let ls := Legacy.mkServer (-12345) Scenario.allow in
  Int32.in_range (Legacy.balance ls) /\
  Legacy.loadBalance (Legacy.mkServer 0 ∅)
    (Legacy.saveBalance ls Scenario.fresh NoFault).1 false =
    (Legacy.mkServer (-12345) ∅, None).
Proof.
  intros ls.
  assert (Hr : Int32.in_range (Legacy.balance ls)).
  { unfold Int32.in_range, Int32.min_int, Int32.max_int. simpl. lia. }
  split; [exact Hr|].
  apply (proj1 (legacy_round_trip ls (Legacy.mkServer 0 ∅) Scenario.fresh Hr)).
Defined.

(** X15. Upgrade: a state file written by the earlier release's
    [saveBalance] is read by the current [loadData] as that balance with
    budget 0, and is rewritten at once as the eight bytes of that pair. *)
Theorem legacy_file_upgrade
    (ls : Legacy.Server) (s : Server) (w : World) :
  Int32.in_range (Legacy.balance ls) ->
  let old := (Legacy.saveBalance ls w NoFault).1 in
  let res := loadData s old false NoFault in
  res.2 = None /\
  res.1.1 = mkServer (Legacy.balance ls) 0 (users s) /\
  dbFile res.1.2 = Some (encode res.1.1) /\
  length (encode res.1.1) = 8%nat.
Proof.
  intros Hr old res. subst res.
  rewrite (loadData_four s old (Int32.to_uint32 (Legacy.balance ls)) NoFault)
    by reflexivity.
  cbv zeta. rewrite to_uint32_idemp, of_Z_to_uint32 by assumption.
  simpl. repeat split.
Qed.

Lemma legacy_file_upgrade_witness :
  let ls := Legacy.mkServer 4200 Scenario.allow in
  let old := (Legacy.saveBalance ls Scenario.fresh NoFault).1 in
  Int32.in_range (Legacy.balance ls) /\
  (loadData (mkServer 0 0 Scenario.allow) old false NoFault).1.1 =
    mkServer 4200 0 Scenario.allow.
Proof.
  intros ls old.
  assert (Hr : Int32.in_range (Legacy.balance ls)).
  { unfold Int32.in_range, Int32.min_int, Int32.max_int. simpl. lia. }
  split; [exact Hr|].
  destruct (legacy_file_upgrade ls (mkServer 0 0 Scenario.allow)
              Scenario.fresh Hr) as (_ & H & _).
  exact H.
Defined.

(** X16. Downgrade: the earlier release's [loadBalance] refuses every
    state file the current [saveData] has written, with its
    invalid-data-length error, and keeps the balance it had. *)
Theorem current_file_rejected_by_legacy
    (ls : Legacy.Server) (s : Server) (w : World) :
  Legacy.loadBalance ls (saveData s w NoFault).1 false =
    (ls, Some Legacy.ErrInvalidDataLength) /\
  Legacy.loadBalance ls (saveData s w SyncFails).1 false =
    (ls, Some Legacy.ErrInvalidDataLength).
Proof. split; reflexivity. Qed.

(** ** Response headers *)

(** X17. Every response on a registered route, the 401 and the answer to
    OPTIONS included, carries the three CORS headers the gate sets; no
    handler and no error path removes or overwrites them. *)
Theorem cors_headers_on_every_route
    (s : Server) (w : World) (e : Env) (r : Request) :
  registered (Path r) ->
  Header (serve s w e r).2 !! "Access-Control-Allow-Origin" = Some "*" /\
  Header (serve s w e r).2 !! "Access-Control-Allow-Methods" =
    Some "GET, POST, OPTIONS" /\
  Header (serve s w e r).2 !! "Access-Control-Allow-Headers" =
    Some "Content-Type, Authorization".
Proof.
  intros Hreg. by_outcome_raw s w e r.
  - destruct (route_registered _ Hreg) as [h Hh]. congruence.
  - repeat split.
  - repeat split.
  - repeat split.
  - repeat split.
  - repeat split.
  - repeat split.
  - destruct op; repeat split.
  - repeat split.
Qed.

Lemma cors_headers_on_every_route_witness :
  let r := Scenario.request "DELETE" "/set_budget" EmptyString Unparsable in
  let out := serve Scenario.boot.1 Scenario.boot.2 (Scenario.clock NoFault) r in
  registered (Path r) /\
  Status out.2 = StatusUnauthorized /\
  Header out.2 !! "Access-Control-Allow-Origin" = Some "*".
Proof.
  intros r out.
  assert (Hreg : registered (Path r)) by (right; right; right; reflexivity).
  split; [exact Hreg|]. split; [reflexivity|].
  apply (cors_headers_on_every_route Scenario.boot.1 Scenario.boot.2
           (Scenario.clock NoFault) r Hreg).
Defined.

(** ** The allowlist *)

Section Allowlist.

Variable TrimSpace : string -> string.

Lemma addUser_fields (s : Server) (line : string) :
  balance (addUser TrimSpace s line) = balance s /\
  budget (addUser TrimSpace s line) = budget s.
Proof.
  unfold addUser. destruct (negb _); auto.
Qed.

Lemma addUser_lookup (s : Server) (line u : string) :
  users (addUser TrimSpace s line) !! u =
    if decide (u <> EmptyString /\ TrimSpace line = u) then Some true
    else users s !! u.
Proof.
  unfold addUser.
  destruct (String.eqb_spec (TrimSpace line) EmptyString) as [He|He]; simpl.
  - destruct (decide _) as [[Hu Ht]|_]; [congruence|reflexivity].
  - destruct (decide _) as [[Hu Ht]|Hn].
    + rewrite Ht. apply lookup_insert_eq.
    + apply lookup_insert_ne. intros Ht. apply Hn. split; congruence.
Qed.

Lemma foldl_addUser_fields (lines : list string) :
  forall s,
    balance (foldl (addUser TrimSpace) s lines) = balance s /\
    budget (foldl (addUser TrimSpace) s lines) = budget s.
Proof.
  induction lines as [|line lines IH]; intros s; simpl; [auto|].
  destruct (IH (addUser TrimSpace s line)) as [-> ->].
  apply addUser_fields.
Qed.

Lemma foldl_addUser_lookup (lines : list string) (u : string) :
  forall s,
    (u <> EmptyString /\ exists line, line ∈ lines /\ TrimSpace line = u) /\
    users (foldl (addUser TrimSpace) s lines) !! u = Some true \/
    ~ (u <> EmptyString /\ exists line, line ∈ lines /\ TrimSpace line = u) /\
    users (foldl (addUser TrimSpace) s lines) !! u = users s !! u.
Proof.
  induction lines as [|line lines IH]; intros s; simpl.
  - right. split; [|reflexivity]. intros (_ & l & Hl & _).
    apply not_elem_of_nil in Hl. exact Hl.
  - destruct (IH (addUser TrimSpace s line)) as [[(Hu & l & Hl & Ht) ->]|[Hn ->]].
    + left. split; [|reflexivity]. split; [exact Hu|].
      exists l. split; [right; exact Hl|exact Ht].
    + rewrite addUser_lookup.
      destruct (decide _) as [[Hu Ht]|Hd].
      * left. split; [|reflexivity]. split; [exact Hu|].
        exists line. split; [left|exact Ht].
      * right. split; [|reflexivity]. intros (Hu & l & Hl & Ht).
        apply elem_of_cons in Hl as [->|Hl].
        -- apply Hd. auto.
        -- apply Hn. split; [exact Hu|]. exists l. auto.
Qed.

(** X18. [loadUsers] adds to the allowlist exactly the non-empty trimmed
    lines of the users file, each with the value true: a name is allowed
    afterwards if and only if it was allowed before or is the trimmed form
    of some line and is not empty; every other entry, balance and budget
    are as before. Blank lines add nothing, and when the file cannot be
    opened nothing changes and an error is returned. *)
Theorem loadUsers_allowlist
    (s : Server) (lines : list string) (scan_fails : bool) (u : string) :
  let s' := (loadUsers TrimSpace s (UsersLines lines scan_fails)).1 in
  let listed :=
    u <> EmptyString /\ exists line, line ∈ lines /\ TrimSpace line = u in
  (users s' !! u = Some true <-> users s !! u = Some true \/ listed) /\
  (~ listed -> users s' !! u = users s !! u) /\
  balance s' = balance s /\
  budget s' = budget s /\
  loadUsers TrimSpace s UsersUnreadable = (s, Some (ErrOS "open")).
Proof.
  intros s' listed. subst s' listed. simpl.
  destruct (foldl_addUser_fields lines s) as [Hb Hg].
  split; [|split; [|auto]].
  - destruct (foldl_addUser_lookup lines u s) as [[Hl ->]|[Hn ->]];
      split; auto. intros [H|H]; [exact H|contradiction].
  - intros Hn. destruct (foldl_addUser_lookup lines u s) as [[Hl _]|[_ ->]];
      [contradiction|reflexivity].
Qed.

Lemma loadData_users (s : Server) (w : World) (rf : bool) (f : fault) :
  users (loadData s w rf f).1.1 = users s.
Proof.
  unfold loadData. destruct rf; [reflexivity|].
  destruct (dbFile w) as [data|]; [|reflexivity].
  destruct (length data =? 4)%nat.
  - destruct (LittleEndian.Uint32 data); [|reflexivity].
    destruct (saveData _ _ f). reflexivity.
  - destruct (length data =? 8)%nat; [|reflexivity].
    destruct (LittleEndian.Uint32 (slice data 0 4)); [|reflexivity].
    destruct (LittleEndian.Uint32 (slice data 4 8)); reflexivity.
Qed.

Lemma startup_users (allow : gmap string bool) (w : World) (rf : bool)
    (f : fault) :
  users (startup allow w rf f).1 = allow.
Proof.
  unfold startup.
  pose proof (loadData_users (mkServer 0 0 allow) w rf f) as H.
  destruct (loadData (mkServer 0 0 allow) w rf f) as [[s1 w1] [err|]];
    exact H.
Qed.

(** X19. [main] reaches the point where it serves exactly when both log
    files open and the users file is read to its end without error; the
    state file plays no part in that. The gate of the running service then
    lets a credential through if and only if it is non-empty and equals the
    trimmed form of some line of the users file; with an empty users file
    nobody is let through. *)
Theorem main_gate
    (tl_opens ul_opens : bool) (src : users_source) (w : World)
    (rf : bool) (f : fault) :
  match main TrimSpace tl_opens ul_opens src w rf f with
  | Some (s, w') =>
      tl_opens = true /\ ul_opens = true /\
      exists lines,
        src = UsersLines lines false /\
        forall u,
          ~ denied s u <->
          u <> EmptyString /\ exists line, line ∈ lines /\ TrimSpace line = u
  | None =>
      tl_opens = false \/ ul_opens = false \/ src = UsersUnreadable \/
      exists lines, src = UsersLines lines true
  end.
Proof.
  unfold main. destruct tl_opens; simpl; [|auto].
  destruct ul_opens; simpl; [|auto].
  destruct src as [|lines [|]]; simpl; [auto|eauto 6|].
  destruct (startup _ w rf f) as [s w'] eqn:Hboot.
  split; [reflexivity|]. split; [reflexivity|].
  exists lines. split; [reflexivity|]. intros u.
  assert (Hu : users s = users (foldl (addUser TrimSpace) (mkServer 0 0 ∅) lines)).
  { pose proof (startup_users
                  (users (foldl (addUser TrimSpace) (mkServer 0 0 ∅) lines))
                  w rf f) as H.
    rewrite Hboot in H. exact H. }
  unfold denied. rewrite Hu.
  destruct (foldl_addUser_lookup lines u (mkServer 0 0 ∅)) as [[Hl ->]|[Hn ->]].
  - split; [intros _; exact Hl|]. intros _ [He|Hne]; [|congruence].
    destruct Hl as [Hl _]. contradiction.
  - simpl. rewrite lookup_empty. split; [|intros Hl; contradiction].
    intros H. exfalso. apply H. right. discriminate.
Qed.

End Allowlist.

Lemma loadUsers_allowlist_witness :
  let lines := ["alice  "; EmptyString; "   "; "  bob"] in
  let s' := (loadUsers trim_ascii (mkServer 5 6 ∅) (UsersLines lines false)).1 in
  ~ ("carol" <> EmptyString /\
     exists line, line ∈ lines /\ trim_ascii line = "carol") /\
  users s' !! "carol" = None /\
  users s' !! "bob" = Some true /\
  users s' !! EmptyString = None.
Proof.
  intros lines s'.
  assert (Hn : ~ ("carol" <> EmptyString /\
                  exists line, line ∈ lines /\ trim_ascii line = "carol")).
  { intros (_ & l & Hl & Ht). unfold lines in Hl.
    repeat (apply elem_of_cons in Hl as [->|Hl]; [discriminate Ht|]).
    apply not_elem_of_nil in Hl. exact Hl. }
  destruct (loadUsers_allowlist trim_ascii (mkServer 5 6 ∅) lines false "carol")
    as (_ & Hsame & _).
  split; [exact Hn|]. split; [exact (Hsame Hn)|].
  split; vm_compute; reflexivity.
Defined.

(** [main] on a users file with padded and blank lines: alice and bob pass
    the gate, the empty credential and an unlisted name do not. *)
Example main_on_users_file :
  match main trim_ascii true true
          (UsersLines ["alice  "; EmptyString; "   "; "  bob"] false)
          Scenario.fresh false NoFault with
  | Some (s, _) =>
      users_index s "alice" = true /\ users_index s "bob" = true /\
      users_index s "alice  " = false /\ users_index s EmptyString = false /\
      (balance s, budget s) = (0, 0)
  | None => False
  end.
Proof. vm_compute. repeat split. Qed.

(** X20. What a 500 leaves on disk depends on where [saveData] failed.
    If only the final sync failed, the file already holds the new state and
    the next start-up loads it; if the file could not be opened, the file is
    untouched and the next start-up loads the state saved before, so the
    operation that is visible in memory is forgotten by a restart. *)
Theorem restart_after_failed_save
    (op : mutation) (s : Server) (w : World) (e : Env) (r : Request) (a : Z)
    (allow : gmap string bool) :
  Server_ok s ->
  dbFile w = Some (encode s) ->
  Method r = "POST" ->
  Path r = path_of op ->
  ~ denied s (Authorization r) ->
  Decode (Payload r) = Some a ->
  valid op a ->
  let out := serve s w e r in
  let boot := startup allow out.1.2 false NoFault in
  (disk e = SyncFails ->
   Status out.2 = StatusInternalServerError /\
   boot.1 = mkServer (balance out.1.1) (budget out.1.1) allow) /\
  (disk e = OpenFails ->
   Status out.2 = StatusInternalServerError /\
   out.1.1 = apply_op op s a /\
   boot.1 = mkServer (balance s) (budget s) allow).
Proof.
  intros Hok Hfile Hm Hp Hauth Ha Hv out boot.
  assert (Hok1 : Server_ok out.1.1) by apply serve_ok, Hok.
  assert (Hboot : forall s0, Server_ok s0 -> dbFile out.1.2 = Some (encode s0) ->
                             boot.1 = mkServer (balance s0) (budget s0) allow).
  { intros s0 Hs0 Hf0. unfold boot, startup.
    rewrite (loadData_encode s0 (mkServer 0 0 allow) out.1.2 NoFault Hs0 Hf0).
    reflexivity. }
  split; intros Hf.
  - assert (Hf' : disk e <> NoFault) by (rewrite Hf; discriminate).
    destruct (serve_mutation_not_saved op s w e r a Hm Hp Hauth Ha Hv Hf')
      as (Hs1 & Hd & _ & Hst).
    fold out in Hs1, Hd, Hst. rewrite Hf in Hd. simpl in Hd.
    rewrite <- Hs1 in Hd. split; [exact Hst|]. apply Hboot; assumption.
  - assert (Hf' : disk e <> NoFault) by (rewrite Hf; discriminate).
    destruct (serve_mutation_not_saved op s w e r a Hm Hp Hauth Ha Hv Hf')
      as (Hs1 & Hd & _ & Hst).
    fold out in Hs1, Hd, Hst. rewrite Hf in Hd. simpl in Hd.
    rewrite Hfile in Hd. split; [exact Hst|]. split; [exact Hs1|].
    apply Hboot; assumption.
Qed.

Lemma restart_after_failed_save_witness :
  let s := mkServer 300 500 Scenario.allow in
  let w := set_dbFile Scenario.fresh (Some (encode s)) in
  let r := Scenario.request "POST" "/set" "alice" (Number 42) in
  let synced := serve s w (Scenario.clock SyncFails) r in
  let unopened := serve s w (Scenario.clock OpenFails) r in
  (Server_ok s /\ dbFile w = Some (encode s) /\ Method r = "POST" /\
   Path r = path_of OpSet /\ ~ denied s (Authorization r) /\
   Decode (Payload r) = Some 42 /\ valid OpSet 42) /\
  (startup Scenario.allow synced.1.2 false NoFault).1 =
    mkServer 42 500 Scenario.allow /\
  balance unopened.1.1 = 42 /\
  (startup Scenario.allow unopened.1.2 false NoFault).1 =
    mkServer 300 500 Scenario.allow.
Proof.
  intros s w r synced unopened.
  assert (Hok : Server_ok s).
  { unfold Server_ok, Int32.in_range, Int32.min_int, Int32.max_int. simpl. lia. }
  assert (Hauth : ~ denied s (Authorization r)).
  { intros [H|H]; [discriminate H|]. apply H. vm_compute. reflexivity. }
  assert (Hv : valid OpSet 42) by (simpl; unfold maxBalance; lia).
  destruct (restart_after_failed_save OpSet s w (Scenario.clock SyncFails) r 42
              Scenario.allow Hok eq_refl eq_refl eq_refl Hauth eq_refl Hv)
    as [Hsync _].
  destruct (restart_after_failed_save OpSet s w (Scenario.clock OpenFails) r 42
              Scenario.allow Hok eq_refl eq_refl eq_refl Hauth eq_refl Hv)
    as [_ Hopen].
  destruct (Hsync eq_refl) as [_ H1]. destruct (Hopen eq_refl) as (_ & H2 & H3).
  split.
  { split; [exact Hok|]. split; [reflexivity|]. split; [reflexivity|].
    split; [reflexivity|]. split; [exact Hauth|]. split; [reflexivity|exact Hv]. }
  split; [exact H1|]. split; [exact (f_equal balance H2)|exact H3].
Defined.
